(** * Runtime hosts override engine (MoviePilot plugins)

    A shallow embedding of the two plugin variants of the repository:

    - [V1]: [github_tmdb_runtime_hosts/__init__.py] (plugin version 1.4.0),
    - [V2]: [plugins.v2/tmdb_runtime_hosts/__init__.py] (plugin version 1.5.0).

    Python [str] values are modelled as [string]; the text primitives of
    module [Py] follow CPython on the ASCII range (code points above 127 are
    ordinary characters for them).  Python [dict]s are [gmap]s living in a
    store of objects addressed by location, so that two names bound to one
    dict really share it.  The third-party collaborators ([ipaddress],
    [requests], the platform resolver) are fields of the class [World]. *)

From Stdlib Require Import ZArith Ascii.
From stdpp Require Import base option list gmap strings.

(** ** Python [str] methods used by the plugins *)

Module Py.

Definition code (c : ascii) : nat := nat_of_ascii c.

(** [str.isspace] on one ASCII character: TAB, LF, VT, FF, CR, the four
    information separators FS, GS, RS, US, and the space. *)
Definition isspace (c : ascii) : bool :=
  let n := code c in
  ((9 <=? n) && (n <=? 13)) || ((28 <=? n) && (n <=? 32)).

(** Line boundaries recognised by [str.splitlines]: LF, VT, FF, CR, FS, GS,
    RS (and CR LF taken as one boundary, see [splitlines_go]). *)
Definition islinebreak (c : ascii) : bool :=
  let n := code c in
  ((10 <=? n) && (n <=? 13)) || ((28 <=? n) && (n <=? 30)).

Definition is_cr (c : ascii) : bool := code c =? 13.
Definition is_lf (c : ascii) : bool := code c =? 10.

(** [cur] is the line read so far, [after_cr] tells that the previous
    character was a CR that already closed a line. *)
Fixpoint splitlines_go (cur : string) (after_cr : bool) (s : string)
  : list string :=
  match s with
  | EmptyString => if decide (cur = EmptyString) then [] else [cur]
  | String c s' =>
      if after_cr && is_lf c then splitlines_go cur false s'
      else if islinebreak c then cur :: splitlines_go EmptyString (is_cr c) s'
      else splitlines_go (cur +:+ String c EmptyString) false s'
  end.

(** [s.splitlines()] *)
Definition splitlines (s : string) : list string :=
  splitlines_go EmptyString false s.

(** [s.lstrip()] *)
Fixpoint lstrip (s : string) : string :=
  match s with
  | EmptyString => EmptyString
  | String c s' => if isspace c then lstrip s' else s
  end.

(** [s.rstrip()] *)
Fixpoint rstrip (s : string) : string :=
  match s with
  | EmptyString => EmptyString
  | String c s' =>
      match rstrip s' with
      | EmptyString => if isspace c then EmptyString else String c EmptyString
      | r => String c r
      end
  end.

(** [s.strip()] *)
Definition strip (s : string) : string := rstrip (lstrip s).

(** [s.startswith(p)] *)
Fixpoint startswith (p s : string) : bool :=
  match p, s with
  | EmptyString, _ => true
  | String a p', String b s' => if decide (a = b) then startswith p' s' else false
  | String _ _, EmptyString => false
  end.

(** Does a token begin right here? *)
Definition at_token (s : string) : bool :=
  match s with
  | EmptyString => false
  | String c _ => negb (isspace c)
  end.

(** [s.split()]: the maximal runs of non-whitespace characters, in order. *)
Fixpoint split (s : string) : list string :=
  match s with
  | EmptyString => []
  | String c s' =>
      if isspace c then split s'
      else if at_token s' then
        match split s' with
        | t :: ts => String c t :: ts
        | [] => [String c EmptyString]
        end
      else String c EmptyString :: split s'
  end.

Definition lower_char (c : ascii) : ascii :=
  let n := code c in
  if (65 <=? n) && (n <=? 90) then ascii_of_nat (n + 32) else c.

(** [s.lower()] *)
Fixpoint lower (s : string) : string :=
  match s with
  | EmptyString => EmptyString
  | String c s' => String (lower_char c) (lower s')
  end.

(** [c in s] for a one-character string [c] *)
Fixpoint contains (c : ascii) (s : string) : bool :=
  match s with
  | EmptyString => false
  | String d s' => if decide (c = d) then true else contains c s'
  end.

End Py.

(** ** Data model *)

(** [socket.AddressFamily] and [socket.SocketKind] members the plugins name. *)
Inductive AddressFamily := AF_INET | AF_INET6.
Inductive SocketKind := SOCK_STREAM.

#[global] Instance AddressFamily_eq_dec : EqDecision AddressFamily.
Proof. solve_decision. Defined.

(** A hosts table: [Dict[str, Tuple[str, socket.AddressFamily]]]. *)
Abbreviation hosts := (gmap string (string * AddressFamily)).

(** The [port] argument of [getaddrinfo]: [None], an [int] or a service name. *)
Inductive port := PortNone | PortNum (n : Z) | PortName (s : string).

(** The optional arguments [*a, **kw] of [getaddrinfo]. *)
Record hints := Hints { h_family : Z; h_type : Z; h_proto : Z; h_flags : Z }.

(** One element of the list [getaddrinfo] returns:
    [(family, type, proto, canonname, sockaddr)]. *)
Definition addrinfo : Type :=
  AddressFamily * SocketKind * Z * string * (string * port).

(** Dict objects are addressed by their position in the store. *)
Definition loc := nat.

(** A value that [socket.getaddrinfo] or [_ORIGINAL_GETADDRINFO] can be bound
    to: the platform function found at import time, or a closure made by
    [_patch] / [_patch_dns] over the dict object [table].  The closure reads
    the module global [_ORIGINAL_GETADDRINFO] when it is called, not when it
    is made. *)
Inductive resolver := Original | Patched (table : loc).

#[global] Instance resolver_eq_dec : EqDecision resolver.
Proof. solve_decision. Defined.

(** Exceptions that [requests] raises. *)
Inductive exn :=
| ConnectionError (msg : string)
| Timeout (msg : string)
| HTTPError (status_code : Z).

Inductive request :=
| GET (url : string) (timeout : Z)
| HEAD (url : string) (timeout : Z).

(** What a request comes back with: an exception, or a response object with
    its [status_code] and [text]. *)
Inductive http_result :=
| Raised (e : exn)
| Response (status_code : Z) (text : string).

Inductive level := INFO | WARNING | ERROR.

(** The log lines of the two plugins, by what they report. *)
Inductive event :=
| FetchFailed (url : string) (cause : exn)   (* _load_hosts, except branch *)
| Loaded (n : nat) (url : string)            (* _load_hosts, record count *)
| PrimaryEmpty                               (* _update_all, empty primary *)
| ProbeOk (url : string)                     (* probe passed *)
| ProbeFailed (url : string) (cause : exn)   (* probe, except branch *)
| GateClosed                                 (* _update_all, probe failed *)
| Merged (n : nat)                           (* _update_all, merged total *)
| UpdateStarted                              (* _update_all, first line *)
| DnsPatched                                 (* _patch_dns *)
| UpdateDone                                 (* _update_all, last line *)
| JobRegistered (hour : Z)                   (* _register_job *)
| PluginEnabled                              (* _enable *)
| PluginDisabled                             (* _disable *)
| PluginStopped                              (* stop_plugin *)
| InitDone.                                  (* init_plugin *)

(** A cron job of the scheduler. *)
Record job := Job {
  hour : Z;
  minute : option Z;
  coalesce : bool;
  max_instances : Z
}.

(** The configuration dict of the second variant, with every key present. *)
Record config := Config {
  enable : bool;
  update_hour : Z;
  github_url : string;
  tmdb_ipv4_url : string;
  tmdb_ipv6_url : string;
  probe_url : string
}.

(** The process state the plugins read and write. *)
Record state := State {
  objects : list hosts;              (* the dict objects *)
  getaddrinfo : resolver;            (* socket.getaddrinfo *)
  _ORIGINAL_GETADDRINFO : resolver;  (* module global *)
  _RUNTIME_HOSTS : loc;              (* module global, bound to a dict *)
  jobs : gmap string job;            (* the scheduler's job store *)
  plugin_config : config;            (* self.config (second variant) *)
  log : list (level * event);        (* oldest first *)
  sent : list request                (* requests issued, oldest first *)
}.

(** The third-party collaborators. *)
Class World := {
  (** [ipaddress.ip_address(addr)] returns (true) or raises [ValueError]. *)
  ip_address : string -> bool;
  (** The platform's [socket.getaddrinfo] and whatever it gives back. *)
  sys_result : Type;
  sys_getaddrinfo : string -> port -> hints -> sys_result;
  (** The network: the outcome of a request issued in a given state. *)
  requests_send : state -> request -> http_result
}.

(** ** A state monad for the plugin code *)

Definition M (A : Type) : Type := state -> A * state.

#[global] Instance M_ret : MRet M := fun A (x : A) st => (x, st).
#[global] Instance M_bind : MBind M :=
  fun A B (f : A -> M B) (m : M A) st => let '(x, st') := m st in f x st'.

Definition exec {A} (m : M A) (st : state) : state := snd (m st).
Definition eval {A} (m : M A) (st : state) : A := fst (m st).

Definition modify (f : state -> state) : M unit := fun st => (tt, f st).
Definition gets {A} (f : state -> A) : M A := fun st => (f st, st).

Definition set_objects (o : list hosts) (st : state) : state :=
  State o (getaddrinfo st) (_ORIGINAL_GETADDRINFO st) (_RUNTIME_HOSTS st)
        (jobs st) (plugin_config st) (log st) (sent st).
Definition set_getaddrinfo (r : resolver) (st : state) : state :=
  State (objects st) r (_ORIGINAL_GETADDRINFO st) (_RUNTIME_HOSTS st)
        (jobs st) (plugin_config st) (log st) (sent st).
Definition set_ORIGINAL_GETADDRINFO (r : resolver) (st : state) : state :=
  State (objects st) (getaddrinfo st) r (_RUNTIME_HOSTS st)
        (jobs st) (plugin_config st) (log st) (sent st).
Definition set_RUNTIME_HOSTS (l : loc) (st : state) : state :=
  State (objects st) (getaddrinfo st) (_ORIGINAL_GETADDRINFO st) l
        (jobs st) (plugin_config st) (log st) (sent st).
Definition set_jobs (j : gmap string job) (st : state) : state :=
  State (objects st) (getaddrinfo st) (_ORIGINAL_GETADDRINFO st)
        (_RUNTIME_HOSTS st) j (plugin_config st) (log st) (sent st).
Definition set_plugin_config (c : config) (st : state) : state :=
  State (objects st) (getaddrinfo st) (_ORIGINAL_GETADDRINFO st)
        (_RUNTIME_HOSTS st) (jobs st) c (log st) (sent st).
Definition set_log (l : list (level * event)) (st : state) : state :=
  State (objects st) (getaddrinfo st) (_ORIGINAL_GETADDRINFO st)
        (_RUNTIME_HOSTS st) (jobs st) (plugin_config st) l (sent st).
Definition set_sent (l : list request) (st : state) : state :=
  State (objects st) (getaddrinfo st) (_ORIGINAL_GETADDRINFO st)
        (_RUNTIME_HOSTS st) (jobs st) (plugin_config st) (log st) l.

(** The dict stored at [l] (no dict there: nothing to find). *)
Definition hosts_at (st : state) (l : loc) : hosts := default ∅ (objects st !! l).

(** [{}] or a dict display: a new object. *)
Definition new_dict (d : hosts) : M loc :=
  fun st => (length (objects st), set_objects (objects st ++ [d]) st).

(** [base.update(overlay)]: written into [base], [overlay]'s entries win. *)
Definition dict_update (base overlay : loc) : M unit :=
  modify (fun st =>
    set_objects (<[base := hosts_at st overlay ∪ hosts_at st base]> (objects st)) st).

(** [{**base, **overlay}]: a new dict, [overlay]'s entries win. *)
Definition dict_unpack (base overlay : loc) : M loc :=
  fun st => new_dict (hosts_at st overlay ∪ hosts_at st base) st.

(** [d.clear()] *)
Definition dict_clear (d : loc) : M unit :=
  modify (fun st => set_objects (<[d := ∅]> (objects st)) st).

(** [not d] for a dict: true when it is empty. *)
Definition dict_not (d : loc) : M bool :=
  gets (fun st => bool_decide (hosts_at st d = ∅)).

(** [len(d)] *)
Definition dict_len (d : loc) : M nat :=
  gets (fun st => size (hosts_at st d)).

Definition logger (lv : level) (e : event) : M unit :=
  modify (fun st => set_log (log st ++ [(lv, e)]) st).

(** ** What both variants share *)

Definition JOB_ID : string := "runtime_hosts_daily".

Section Shared.
Context `{W : World}.

(** [_is_valid_ip(addr)] *)
Definition _is_valid_ip (addr : string) : bool :=
  if ip_address addr then true else false.

(** The body of the [for line in resp.text.splitlines()] loop of
    [_load_hosts], as a step on the dict being filled. *)
Definition load_line (table : hosts) (line : string) : hosts :=
  let line := Py.strip line in
  if bool_decide (line <> EmptyString) && negb (Py.startswith "#" line) then
    let parts := Py.split line in
    if 2 <=? length parts then
      match head parts, last parts with
      | Some ip, Some name =>
          let host := Py.lower name in
          if _is_valid_ip ip then
            let af := if Py.contains ":" ip then AF_INET6 else AF_INET in
            <[host := (ip, af)]> table
          else table
      | _, _ => table
      end
    else table
  else table.

(** The whole loop of [_load_hosts] on a response text. *)
Definition parse (text : string) : hosts :=
  foldl load_line ∅ (Py.splitlines text).

(** [Response.raise_for_status()] of [requests]: it raises [HTTPError] for
    the client and server error statuses, 400 to 599, and for no other. *)
Definition raise_for_status (status_code : Z) : option exn :=
  if ((400 <=? status_code) && (status_code <? 600))%Z
  then Some (HTTPError status_code) else None.

(** [requests.get(url, timeout=t)] / [requests.head(url, timeout=t)] *)
Definition requests_call (rq : request) : M http_result :=
  fun st => (requests_send st rq, set_sent (sent st ++ [rq]) st).

(** The [try] part of [_load_hosts] up to the loop: the response text, or
    the exception that reaches [except Exception as e]. *)
Definition fetch_text (url : string) : M (exn + string) :=
  r ← requests_call (GET url 15);
  mret (match r with
        | Raised e => inl e
        | Response code text =>
            match raise_for_status code with
            | Some e => inl e
            | None => inr text
            end
        end).

(** *** The interceptor *)

Inductive outcome :=
| Synthesized (l : list addrinfo)   (* the list built from the table *)
| Delegated (r : sys_result)        (* what the platform function returned *)
| RecursionError.                   (* the call stack ran out *)

(** A call of a resolver, with the calls made to the platform function. *)
Record reply := Reply {
  platform_calls : list (string * port * hints);
  result : outcome
}.

(** Calling the function value [r] as [r(host, port, *a, **kw)] with
    [depth] more Python frames available.  The closure looks [host.lower()]
    up in its dict and otherwise calls whatever [_ORIGINAL_GETADDRINFO] is
    bound to at that moment. *)
Fixpoint call (depth : nat) (st : state) (r : resolver)
         (host : string) (p : port) (a : hints) : reply :=
  match r with
  | Original => Reply [(host, p, a)] (Delegated (sys_getaddrinfo host p a))
  | Patched table =>
      match hosts_at st table !! Py.lower host with
      | Some (ip, family) =>
          Reply [] (Synthesized [(family, SOCK_STREAM, 0%Z, EmptyString, (ip, p))])
      | None =>
          match depth with
          | O => Reply [] RecursionError
          | S depth' => call depth' st (_ORIGINAL_GETADDRINFO st) host p a
          end
      end
  end.

(** [socket.getaddrinfo(host, port, *a, **kw)] as any code of the process
    calls it. *)
Definition socket_getaddrinfo (depth : nat) (st : state)
           (host : string) (p : port) (a : hints) : reply :=
  call depth st (getaddrinfo st) host p a.

End Shared.

(** The state right after the module is imported: the platform function in
    place and captured, [_RUNTIME_HOSTS] bound to a new empty dict. *)
Definition module_loaded (c : config) : state :=
  State [∅] Original Original 0 ∅ c [] [].

(** ** First variant: [github_tmdb_runtime_hosts] *)

Module V1.
Section Plugin.
Context `{W : World}.

Definition PRIMARY_URL : string := "https://raw.hellogithub.com/hosts".
Definition TMDB_IPV4_URL : string :=
  "https://raw.githubusercontent.com/cnwikee/CheckTMDB/refs/heads/main/Tmdb_host_ipv4".
Definition TMDB_IPV6_URL : string :=
  "https://raw.githubusercontent.com/cnwikee/CheckTMDB/refs/heads/main/Tmdb_host_ipv6".
Definition PROBE_URL : string := "https://raw.githubusercontent.com".

(** [_load_hosts(url)]: [hosts] is returned on both paths. *)
Definition _load_hosts (url : string) : M loc :=
  hosts ← new_dict ∅;
  r ← fetch_text url;
  match r with
  | inr text =>
      modify (fun st => set_objects (<[hosts := parse text]> (objects st)) st);;
      mret hosts
  | inl e =>
      logger ERROR (FetchFailed url e);;
      mret hosts
  end.

(** [_patch(hosts)] *)
Definition _patch (hosts : loc) : M unit :=
  modify (set_getaddrinfo (Patched hosts)).

(** [_probe_github()] *)
Definition _probe_github : M bool :=
  r ← requests_call (HEAD PROBE_URL 5);
  match r with
  | Raised e => logger WARNING (ProbeFailed PROBE_URL e);; mret false
  | Response code _ =>
      match raise_for_status code with
      | Some e => logger WARNING (ProbeFailed PROBE_URL e);; mret false
      | None => logger INFO (ProbeOk PROBE_URL);; mret true
      end
  end.

(** [_update_all()] *)
Definition _update_all : M unit :=
  github_hosts ← _load_hosts PRIMARY_URL;
  empty ← dict_not github_hosts;
  if empty : bool then logger ERROR PrimaryEmpty
  else
    _patch github_hosts;;
    ok ← _probe_github;
    if negb ok then logger ERROR GateClosed
    else
      tmdb_hosts ← _load_hosts TMDB_IPV4_URL;
      tmdb6 ← _load_hosts TMDB_IPV6_URL;
      dict_update tmdb_hosts tmdb6;;
      dict_update github_hosts tmdb_hosts;;
      _patch github_hosts;;
      n ← dict_len github_hosts;
      logger INFO (Merged n).

(** [stop_service()]: [remove_job] raises when the job is unknown, and the
    exception is swallowed. *)
Definition stop_service : M unit :=
  modify (fun st => set_jobs (delete JOB_ID (jobs st)) st).

(** [_register_job()] *)
Definition _register_job : M unit :=
  stop_service;;
  modify (fun st => set_jobs (<[JOB_ID := Job 4 (Some 0%Z) true 1]> (jobs st)) st).

(** [_enable()] *)
Definition _enable : M unit :=
  _update_all;;
  _register_job;;
  logger INFO PluginEnabled.

(** [_disable()] *)
Definition _disable : M unit :=
  stop_service;;
  modify (fun st => set_getaddrinfo (_ORIGINAL_GETADDRINFO st) st);;
  rh ← gets _RUNTIME_HOSTS;
  dict_clear rh;;
  logger INFO PluginDisabled.

(** [init_plugin(config)]: the config dict is read for the truth value of
    its ["enable"] key only. *)
Definition init_plugin (config : option (gmap string bool)) : M unit :=
  let enabled :=
    match config with
    | Some c => negb (bool_decide (c = ∅)) && default false (c !! "enable")
    | None => false
    end in
  if enabled then _enable else _disable.

(** [get_state()] *)
Definition get_state : M bool :=
  gets (fun st => bool_decide (is_Some (jobs st !! JOB_ID))).

(** The host application calling [init_plugin] time after time, with one
    config after the other (enable and disable cycles). *)
Fixpoint reconfigure (configs : list (option (gmap string bool))) : M unit :=
  match configs with
  | [] => mret tt
  | c :: rest => init_plugin c;; reconfigure rest
  end.

End Plugin.
End V1.

(** ** Second variant: [plugins.v2/tmdb_runtime_hosts] *)

Module V2.
Section Plugin.
Context `{W : World}.

Definition DEFAULT_CONFIG : config :=
  Config true 4
    "https://raw.hellogithub.com/hosts"
    "https://raw.githubusercontent.com/cnwikee/CheckTMDB/main/Tmdb_host_ipv4"
    "https://raw.githubusercontent.com/cnwikee/CheckTMDB/main/Tmdb_host_ipv6"
    "https://api.github.com".

(** [remove_job(id)] of the host's scheduler module, which is not part of
    the repository: removing an unknown job is taken to do nothing. *)
Definition remove_job (id : string) : M unit :=
  modify (fun st => set_jobs (delete id (jobs st)) st).

(** [add_job(...)] of the same module. *)
Definition add_job (id : string) (j : job) : M unit :=
  modify (fun st => set_jobs (<[id := j]> (jobs st)) st).

(** [_load_hosts(url)]: a second new dict is returned on failure. *)
Definition _load_hosts (url : string) : M loc :=
  hosts ← new_dict ∅;
  r ← fetch_text url;
  match r with
  | inr text =>
      modify (fun st => set_objects (<[hosts := parse text]> (objects st)) st);;
      n ← dict_len hosts;
      logger INFO (Loaded n url);;
      mret hosts
  | inl e =>
      logger ERROR (FetchFailed url e);;
      new_dict ∅
  end.

(** [_patch_dns(hosts)] *)
Definition _patch_dns (hosts : loc) : M unit :=
  modify (set_getaddrinfo (Patched hosts));;
  logger INFO DnsPatched.

(** [_probe_connectivity(url)] *)
Definition _probe_connectivity (url : string) : M bool :=
  r ← requests_call (HEAD url 5);
  match r with
  | Raised e => logger WARNING (ProbeFailed url e);; mret false
  | Response code _ =>
      match raise_for_status code with
      | Some e => logger WARNING (ProbeFailed url e);; mret false
      | None => logger INFO (ProbeOk url);; mret true
      end
  end.

(** [_update_all()] *)
Definition _update_all : M unit :=
  logger INFO UpdateStarted;;
  cfg ← gets plugin_config;
  github_hosts ← _load_hosts (github_url cfg);
  empty ← dict_not github_hosts;
  if empty : bool then logger ERROR PrimaryEmpty
  else
    _patch_dns github_hosts;;
    cfg ← gets plugin_config;
    ok ← _probe_connectivity (probe_url cfg);
    if negb ok then logger ERROR GateClosed
    else
      cfg ← gets plugin_config;
      tmdb_hosts ← _load_hosts (tmdb_ipv4_url cfg);
      tmdb6 ← _load_hosts (tmdb_ipv6_url cfg);
      dict_update tmdb_hosts tmdb6;;
      combined_hosts ← dict_unpack github_hosts tmdb_hosts;
      n ← dict_len combined_hosts;
      logger INFO (Merged n);;
      _patch_dns combined_hosts;;
      modify (set_RUNTIME_HOSTS combined_hosts);;
      logger INFO UpdateDone.

(** [_enable()] *)
Definition _enable : M unit :=
  _update_all;;
  modify (fun st => set_ORIGINAL_GETADDRINFO (getaddrinfo st) st);;
  logger INFO PluginEnabled.

(** [_disable()] *)
Definition _disable : M unit :=
  modify (fun st => set_getaddrinfo (_ORIGINAL_GETADDRINFO st) st);;
  rh ← gets _RUNTIME_HOSTS;
  dict_clear rh;;
  logger INFO PluginDisabled.

(** [_register_job()] *)
Definition _register_job : M unit :=
  remove_job JOB_ID;;
  cfg ← gets plugin_config;
  if enable cfg then
    add_job JOB_ID (Job (update_hour cfg) None true 1);;
    logger INFO (JobRegistered (update_hour cfg))
  else mret tt.

(** [init_plugin(config)]: [None] stands for a missing or empty config. *)
Definition init_plugin (cfg : option config) : M unit :=
  modify (set_plugin_config (default DEFAULT_CONFIG cfg));;
  cfg ← gets plugin_config;
  (if enable cfg then _enable else _disable);;
  _register_job;;
  logger INFO InitDone.

(** [stop_plugin()] *)
Definition stop_plugin : M unit :=
  _disable;;
  remove_job JOB_ID;;
  logger INFO PluginStopped.

(** [get_state()] *)
Definition get_state : M bool :=
  cfg ← gets plugin_config; mret (enable cfg).

End Plugin.
End V2.

(** ** The hosts-file format in the words of the specification

    These definitions read a line as the specification describes it; they are
    compared with [load_line] and [parse] below. *)

Section HostsFormat.
Context `{W : World}.

(** A blank line holds nothing but whitespace. *)
Fixpoint blank (line : string) : bool :=
  match line with
  | EmptyString => true
  | String c rest => Py.isspace c && blank rest
  end.

(** The first character of the line that is not whitespace. *)
Fixpoint first_nonspace (line : string) : option ascii :=
  match line with
  | EmptyString => None
  | String c rest => if Py.isspace c then first_nonspace rest else Some c
  end.

(** The family is inferred from the presence of a colon. *)
Definition family_of (address : string) : AddressFamily :=
  if Py.contains ":" address then AF_INET6 else AF_INET.

(** The entry a line stands for, if any: the line is neither blank nor a
    comment, it has at least two whitespace-delimited tokens, and the first
    one is a valid IP literal; the key is the lowercased last token. *)
Definition line_entry (line : string) : option (string * (string * AddressFamily)) :=
  if blank line then None
  else if bool_decide (first_nonspace line = Some "#"%char) then None
  else
    match Py.split line with
    | address :: more =>
        match last more with
        | Some name =>
            if ip_address address
            then Some (Py.lower name, (address, family_of address))
            else None
        | None => None
        end
    | [] => None
    end.



End HostsFormat.

(** ** A scripted world for the scenarios *)

Module Sample.

Definition is_digit (c : ascii) : bool :=
  let n := Py.code c in (48 <=? n) && (n <=? 57).

Fixpoint fields_go (sep : ascii) (cur s : string) : list string :=
  match s with
  | EmptyString => [cur]
  | String c s' =>
      if decide (c = sep) then cur :: fields_go sep EmptyString s'
      else fields_go sep (cur +:+ String c EmptyString) s'
  end.

Fixpoint all_chars (f : ascii -> bool) (s : string) : bool :=
  match s with
  | EmptyString => true
  | String c s' => f c && all_chars f s'
  end.

Fixpoint decimal_go (acc : nat) (s : string) : nat :=
  match s with
  | EmptyString => acc
  | String c s' => decimal_go (10 * acc + (Py.code c - 48)) s'
  end.

(** One decimal octet: one to three digits, no leading zero, at most 255. *)
Definition octet (s : string) : bool :=
  if all_chars is_digit s && (1 <=? String.length s) && (String.length s <=? 3)
  then ((String.length s =? 1) || negb (Py.startswith "0" s))
       && (decimal_go 0 s <=? 255)
  else false.

Definition dotted_quad (s : string) : bool :=
  let parts := fields_go "." EmptyString s in
  (length parts =? 4) && forallb octet parts.

(** Stands in for [ipaddress.ip_address] in the scenarios: it knows the
    IPv4 dotted quads and two IPv6 literals. *)
Definition known_ip (s : string) : bool :=
  dotted_quad s || bool_decide (s ∈ ["2606:4700::6810:84e5"; "::1"]).

(** The platform resolver of the scenarios answers every name alike. *)
Definition fixed_getaddrinfo (host : string) (p : port) (a : hints) : list addrinfo :=
  [(AF_INET, SOCK_STREAM, 6%Z, EmptyString, ("93.184.216.34", p))].

(** A network that answers by the kind of source asked for. *)
Definition net (primary probe tmdb4 tmdb6 : http_result)
           (st : state) (rq : request) : http_result :=
  match rq with
  | HEAD _ _ => probe
  | GET url _ =>
      if bool_decide (url = V1.PRIMARY_URL) then primary
      else if bool_decide (url ∈ [V1.TMDB_IPV4_URL; tmdb_ipv4_url V2.DEFAULT_CONFIG])
      then tmdb4
      else if bool_decide (url ∈ [V1.TMDB_IPV6_URL; tmdb_ipv6_url V2.DEFAULT_CONFIG])
      then tmdb6
      else Raised (ConnectionError "no route to host")
  end.

Definition world (primary probe tmdb4 tmdb6 : http_result) : World :=
  {| ip_address := known_ip;
     sys_result := list addrinfo;
     sys_getaddrinfo := fixed_getaddrinfo;
     requests_send := net primary probe tmdb4 tmdb6 |}.

Definition LF : string := String (ascii_of_nat 10) EmptyString.
Definition CR : string := String (ascii_of_nat 13) EmptyString.
Definition TAB : string := String (ascii_of_nat 9) EmptyString.

Definition github_body : string :=
  "140.82.112.3 github.com" +:+ LF +:+ "185.199.108.133 raw.githubusercontent.com".
Definition tmdb_body : string := "104.244.42.1 api.themoviedb.org".

(** Scenario A: every source answers, the probe passes. *)
Definition scenario_A : World :=
  world (Response 200 github_body) (Response 200 EmptyString)
        (Response 200 tmdb_body) (Response 200 EmptyString).

(** Scenario B: the primary source answers with an empty body. *)
Definition scenario_B : World :=
  world (Response 200 EmptyString) (Response 200 EmptyString)
        (Response 200 tmdb_body) (Response 200 EmptyString).



(** The network of scenario A as a function of the request alone ([net]
    does not look at the state it is given). *)
Definition scenario_A_net : request -> http_result :=
  net (Response 200 github_body) (Response 200 EmptyString)
      (Response 200 tmdb_body) (Response 200 EmptyString)
      (State [] Original Original 0 ∅
             (Config true 4 EmptyString EmptyString EmptyString EmptyString)
             [] []).


End Sample.

(** ** Comparing states *)



(** ** Reading an answer of the network

    What [_load_hosts] and the probes make of an answer, written once so
    that statements about whole runs can name it. *)

Section Answers.
Context `{W : World}.

(** The exception that reaches [except Exception as e], if any. *)
Definition fetch_error (answer : http_result) : option exn :=
  match answer with
  | Raised e => Some e
  | Response code _ => raise_for_status code
  end.

(** The table [_load_hosts] returns for this answer. *)
Definition fetched (answer : http_result) : hosts :=
  match answer, fetch_error answer with
  | Response _ text, None => parse text
  | _, _ => ∅
  end.

(** What the probes return for this answer. *)
Definition probe_passes (answer : http_result) : bool :=
  match fetch_error answer with
  | None => true
  | Some _ => false
  end.

(** The one line a probe logs. *)
Definition probe_log (url : string) (answer : http_result) : level * event :=
  match fetch_error answer with
  | None => (INFO, ProbeOk url)
  | Some e => (WARNING, ProbeFailed url e)
  end.

(** The lines the first variant's [_load_hosts] logs. *)
Definition V1_fetch_log (url : string) (answer : http_result)
  : list (level * event) :=
  match fetch_error answer with
  | None => []
  | Some e => [(ERROR, FetchFailed url e)]
  end.

(** The line the second variant's [_load_hosts] logs. *)
Definition V2_fetch_log (url : string) (answer : http_result) : level * event :=
  match fetch_error answer with
  | None => (INFO, Loaded (size (fetched answer)) url)
  | Some e => (ERROR, FetchFailed url e)
  end.

(** The dict the second variant's [_load_hosts] drops on failure. *)
Definition V2_dropped (answer : http_result) : list hosts :=
  match fetch_error answer with
  | None => []
  | Some _ => [∅]
  end.

End Answers.

(** The truth value [init_plugin] of the first variant reads off its config:
    there is a config, and its ["enable"] entry is truthy. *)
Definition V1_enabled (config : option (gmap string bool)) : bool :=
  match config with
  | Some c => bool_decide (c !! "enable" = Some true)
  | None => false
  end.

(** The requests a run of the pipeline can be made of. *)
Definition run_requests (primary probe tmdb4 tmdb6 : string)
  : list (list request) :=
  [ [GET primary 15];
    [GET primary 15; HEAD probe 5];
    [GET primary 15; HEAD probe 5; GET tmdb4 15; GET tmdb6 15] ].

(** What holds of the first variant from the moment the module is loaded. *)
Definition V1_invariant (st : state) : Prop :=
  _ORIGINAL_GETADDRINFO st = Original
  /\ _RUNTIME_HOSTS st = 0
  /\ hosts_at st 0 = ∅
  /\ 0 < length (objects st)
  /\ match getaddrinfo st with
     | Original => True
     | Patched t => 0 < t < length (objects st)
     end.


(** ** The text primitives on examples *)

Import Sample (LF, CR, TAB).

Example splitlines_ex1 :
  Py.splitlines ("a b" +:+ CR +:+ LF +:+ LF +:+ "# c" +:+ LF) = ["a b"; EmptyString; "# c"].
Proof. reflexivity. Qed.

Example splitlines_ex2 : Py.splitlines LF = [EmptyString] /\ Py.splitlines EmptyString = [].
Proof. split; reflexivity. Qed.

Example strip_ex : Py.strip ("  " +:+ TAB +:+ "1.2.3.4  Host.Name " +:+ TAB) = "1.2.3.4  Host.Name".
Proof. reflexivity. Qed.

Example split_ex : Py.split (" 1.2.3.4 " +:+ TAB +:+ "alias  Host.Name ") = ["1.2.3.4"; "alias"; "Host.Name"].
Proof. reflexivity. Qed.

Example lower_ex : Py.lower "Raw.GitHubUserContent.COM" = "raw.githubusercontent.com".
Proof. reflexivity. Qed.

(** ** Text lemmas *)














(** ** The loop of [_load_hosts] against the hosts-file format *)

Section ParseFacts.
Context `{W : World}.






End ParseFacts.

(** ** The interceptor *)

Section Interceptor.
Context `{W : World}.

Lemma call_hit depth st table host p a ip family :
  hosts_at st table !! Py.lower host = Some (ip, family) ->
  call depth st (Patched table) host p a =
  Reply [] (Synthesized [(family, SOCK_STREAM, 0%Z, EmptyString, (ip, p))]).
Proof. intros H. destruct depth; simpl; by rewrite H. Qed.



(** Once [_ORIGINAL_GETADDRINFO] is bound to a closure whose dict misses
    the name too, a miss never reaches the platform function, whatever the
    stack depth. *)
Lemma call_miss_recursion depth st table table' host p a :
  _ORIGINAL_GETADDRINFO st = Patched table' ->
  hosts_at st table !! Py.lower host = None ->
  hosts_at st table' !! Py.lower host = None ->
  call depth st (Patched table) host p a = Reply [] RecursionError.
Proof.
  intros Ho H H'.
  assert (forall d, call d st (Patched table') host p a = Reply [] RecursionError)
    as Hloop.
  { induction d as [|d IH]; simpl; rewrite H'; [done|]. by rewrite Ho. }
  destruct depth; simpl; rewrite H; [done|]. rewrite Ho. apply Hloop.
Qed.

(** C9.  When the name is in the installed table, the answer is the one
    tuple [(family, SOCK_STREAM, 0, empty canonname, (address, port))] made
    from the stored entry and the requested port, whatever hints the caller
    gave, and the platform function is not called. *)
Theorem hit_gives_one_stream_entry
        depth st table host (p : port) (a : hints) ip family :
  getaddrinfo st = Patched table ->
  hosts_at st table !! Py.lower host = Some (ip, family) ->
  socket_getaddrinfo depth st host p a =
  Reply [] (Synthesized [(family, SOCK_STREAM, 0%Z, EmptyString, (ip, p))]).
Proof.
  intros Hg Hhit. unfold socket_getaddrinfo. rewrite Hg. by apply call_hit.
Qed.

End Interceptor.

(** ** Steps of the pipeline *)

Section Steps.
Context `{W : World}.

Lemma hosts_at_app_l st objs extra l :
  objects st = objs ++ extra -> l < length objs ->
  hosts_at st l = default ∅ (objs !! l).
Proof. intros E Hl. unfold hosts_at. by rewrite E, lookup_app_l. Qed.

Lemma lookup_snoc_here {A} (l : list A) x : (l ++ [x]) !! length l = Some x.
Proof. by rewrite list_lookup_middle. Qed.

Lemma insert_snoc_here {A} (l : list A) x y :
  <[length l := y]> (l ++ [x]) = l ++ [y].
Proof.
  rewrite insert_app_r_alt by lia. by rewrite Nat.sub_diag.
Qed.

(** [fetch_text] sends one GET and touches nothing else. *)
Lemma fetch_text_run url st :
  exec (fetch_text url) st = set_sent (sent st ++ [GET url 15]) st.
Proof. done. Qed.

(** The first variant's [_load_hosts]: one new dict, one GET, at most one
    log line, which is the fetch error that goes with an empty dict. *)
Lemma V1_load_hosts_run url st :
  exists table lines,
    V1._load_hosts url st =
    (length (objects st),
     State (objects st ++ [table]) (getaddrinfo st)
           (_ORIGINAL_GETADDRINFO st) (_RUNTIME_HOSTS st) (jobs st)
           (plugin_config st) (log st ++ lines) (sent st ++ [GET url 15]))
    /\ (lines = [] \/
        table = ∅ /\ exists e, lines = [(ERROR, FetchFailed url e)]).
Proof.
  unfold V1._load_hosts, fetch_text, requests_call, new_dict, logger, modify.
  unfold mbind, M_bind, mret, M_ret. cbn.
  destruct (requests_send _ _) as [e|code text]; [|destruct (raise_for_status code)];
    cbn; unfold set_objects, set_log, set_sent; cbn.
  - exists ∅, [(ERROR, FetchFailed url e)]. eauto.
  - exists ∅, [(ERROR, FetchFailed url e)]. eauto.
  - exists (parse text), []. rewrite insert_snoc_here, app_nil_r. eauto.
Qed.

(** The probe sends one HEAD and logs one line. *)
Lemma V1_probe_run st :
  exists ok line,
    V1._probe_github st =
    (ok,
     State (objects st) (getaddrinfo st) (_ORIGINAL_GETADDRINFO st)
           (_RUNTIME_HOSTS st) (jobs st) (plugin_config st)
           (log st ++ [line]) (sent st ++ [HEAD V1.PROBE_URL 5])).
Proof.
  unfold V1._probe_github, requests_call, logger, modify.
  unfold mbind, M_bind, mret, M_ret. cbn.
  destruct (requests_send _ _) as [e|code text]; [|destruct (raise_for_status code)];
    cbn; eauto.
Qed.

(** The second variant's [_load_hosts]: on success one new dict and the
    count line; on failure the error line and two new empty dicts, of which
    the second is returned. *)
Lemma V2_load_hosts_run url st :
  (exists text,
      V2._load_hosts url st =
      (length (objects st),
       State (objects st ++ [parse text]) (getaddrinfo st)
             (_ORIGINAL_GETADDRINFO st) (_RUNTIME_HOSTS st) (jobs st)
             (plugin_config st)
             (log st ++ [(INFO, Loaded (size (parse text)) url)])
             (sent st ++ [GET url 15])))
  \/ (exists e,
      V2._load_hosts url st =
      (S (length (objects st)),
       State (objects st ++ [∅; ∅]) (getaddrinfo st)
             (_ORIGINAL_GETADDRINFO st) (_RUNTIME_HOSTS st) (jobs st)
             (plugin_config st)
             (log st ++ [(ERROR, FetchFailed url e)])
             (sent st ++ [GET url 15]))).
Proof.
  unfold V2._load_hosts, fetch_text, requests_call, new_dict, logger, modify,
    dict_len, gets.
  unfold mbind, M_bind, mret, M_ret. cbn.
  destruct (requests_send _ _) as [e|code text]; [|destruct (raise_for_status code)];
    cbn; unfold set_objects, set_log, set_sent, hosts_at; cbn.
  - right. exists e. by rewrite length_app, Nat.add_1_r, <- app_assoc.
  - right. exists e. by rewrite length_app, Nat.add_1_r, <- app_assoc.
  - left. exists text. by rewrite insert_snoc_here, lookup_snoc_here.
Qed.


Lemma V1_patch_run g st :
  exec (V1._patch g) st =
  State (objects st) (Patched g) (_ORIGINAL_GETADDRINFO st)
        (_RUNTIME_HOSTS st) (jobs st) (plugin_config st) (log st) (sent st).
Proof. done. Qed.

Lemma V2_patch_dns_run g st :
  exec (V2._patch_dns g) st =
  State (objects st) (Patched g) (_ORIGINAL_GETADDRINFO st)
        (_RUNTIME_HOSTS st) (jobs st) (plugin_config st)
        (log st ++ [(INFO, DnsPatched)]) (sent st).
Proof. done. Qed.

Lemma logger_run lv e st :
  exec (logger lv e) st =
  State (objects st) (getaddrinfo st) (_ORIGINAL_GETADDRINFO st)
        (_RUNTIME_HOSTS st) (jobs st) (plugin_config st)
        (log st ++ [(lv, e)]) (sent st).
Proof. done. Qed.

(** [_update_all] of the first variant, phase by phase. *)
Lemma V1_update_all_phases st :
  V1._update_all st =
  let '(g, st1) := V1._load_hosts V1.PRIMARY_URL st in
  if bool_decide (hosts_at st1 g = ∅) then logger ERROR PrimaryEmpty st1
  else
    let '(ok, st3) := V1._probe_github (exec (V1._patch g) st1) in
    if negb ok then logger ERROR GateClosed st3
    else
      (tmdb_hosts ← V1._load_hosts V1.TMDB_IPV4_URL;
       tmdb6 ← V1._load_hosts V1.TMDB_IPV6_URL;
       dict_update tmdb_hosts tmdb6;;
       dict_update g tmdb_hosts;;
       V1._patch g;;
       n ← dict_len g;
       logger INFO (Merged n)) st3.
Proof.
  unfold V1._update_all. unfold mbind at 1, M_bind at 1.
  destruct (V1._load_hosts V1.PRIMARY_URL st) as [g st1].
  unfold mbind at 1, M_bind at 1. cbn [dict_not gets].
  destruct (bool_decide (hosts_at st1 g = ∅)); [done|].
  unfold mbind at 1, M_bind at 1. cbn [V1._patch modify exec snd].
  unfold mbind at 1, M_bind at 1.
  destruct (V1._probe_github _) as [ok st3]. destruct ok; done.
Qed.

(** [_update_all] of the second variant, phase by phase. *)
Lemma V2_update_all_phases st :
  V2._update_all st =
  let st0 := exec (logger INFO UpdateStarted) st in
  let '(g, st1) := V2._load_hosts (github_url (plugin_config st)) st0 in
  if bool_decide (hosts_at st1 g = ∅) then logger ERROR PrimaryEmpty st1
  else
    let st2 := exec (V2._patch_dns g) st1 in
    let '(ok, st3) := V2._probe_connectivity (probe_url (plugin_config st2)) st2 in
    if negb ok then logger ERROR GateClosed st3
    else
      (cfg ← gets plugin_config;
       tmdb_hosts ← V2._load_hosts (tmdb_ipv4_url cfg);
       tmdb6 ← V2._load_hosts (tmdb_ipv6_url cfg);
       dict_update tmdb_hosts tmdb6;;
       combined_hosts ← dict_unpack g tmdb_hosts;
       n ← dict_len combined_hosts;
       logger INFO (Merged n);;
       V2._patch_dns combined_hosts;;
       modify (set_RUNTIME_HOSTS combined_hosts);;
       logger INFO UpdateDone) st3.
Proof.
  unfold V2._update_all. unfold mbind at 1, M_bind at 1.
  cbn [logger modify exec snd]. unfold mbind at 1, M_bind at 1.
  cbn [gets]. unfold mbind at 1, M_bind at 1.
  cbn [plugin_config set_log].
  destruct (V2._load_hosts _ _) as [g st1].
  unfold mbind at 1, M_bind at 1. cbn [dict_not gets].
  destruct (bool_decide (hosts_at st1 g = ∅)); [done|].
  unfold mbind at 1, M_bind at 1.
  destruct (V2._patch_dns g st1) as [[] st2] eqn:E2.
  replace (exec (V2._patch_dns g) st1) with st2 by (unfold exec; by rewrite E2).
  cbn zeta.
  unfold mbind at 1, M_bind at 1. cbn [gets].
  unfold mbind at 1, M_bind at 1.
  destruct (V2._probe_connectivity _ _) as [ok st3]. destruct ok; done.
Qed.

End Steps.

(** ** The update pipeline *)

Section Pipeline.
Context `{W : World}.

Lemma hosts_at_empty_extra st st' extra l :
  objects st' = objects st ++ extra -> Forall (fun d => d = ∅) extra ->
  hosts_at st' l = hosts_at st l.
Proof.
  intros E Hextra. unfold hosts_at. rewrite E.
  destruct (decide (l < length (objects st))) as [Hl|Hl].
  - by rewrite lookup_app_l.
  - rewrite lookup_app_r, (lookup_ge_None_2 (objects st)) by lia.
    destruct (extra !! _) as [d|] eqn:Hd; [|done].
    apply list_elem_of_lookup_2 in Hd.
    rewrite Forall_forall in Hextra. by rewrite (Hextra d).
Qed.

(** A resolver call reads the state through the dicts and
    [_ORIGINAL_GETADDRINFO] only. *)
Lemma call_ext st st' :
  (forall l, hosts_at st' l = hosts_at st l) ->
  _ORIGINAL_GETADDRINFO st' = _ORIGINAL_GETADDRINFO st ->
  forall depth r host p a, call depth st' r host p a = call depth st r host p a.
Proof.
  intros Hh Ho. induction depth as [|d IH]; intros [|t] host p a; simpl; try done.
  - by rewrite Hh.
  - rewrite Hh, Ho. by destruct (_ !! _) as [[??]|].
Qed.

(** Both variants' [_load_hosts] seen alike: the store grows, the
    returned dict is one of the new ones, one GET is sent. *)
Lemma V1_load_hosts_frame url st :
  exists g extra lines,
    V1._load_hosts url st =
    (g, State (objects st ++ extra) (getaddrinfo st)
              (_ORIGINAL_GETADDRINFO st) (_RUNTIME_HOSTS st) (jobs st)
              (plugin_config st) (log st ++ lines) (sent st ++ [GET url 15]))
    /\ length (objects st) <= g.
Proof.
  destruct (V1_load_hosts_run url st) as (table & lines & E & _).
  exists (length (objects st)), [table], lines. by split.
Qed.





(** C5.  When the primary fetch returns an empty dict, the run stops
    there: the names [socket.getaddrinfo], [_ORIGINAL_GETADDRINFO] and
    [_RUNTIME_HOSTS] keep their values, every dict keeps its content, so
    every resolution gives what it gave before; the last log line is the
    failure reason; and the primary GET is the only request of the run, so
    nothing is tried again.  First conjunct: first variant; second
    conjunct: second variant. *)
Theorem empty_primary_aborts_run :
  (forall st g st1,
      V1._load_hosts V1.PRIMARY_URL st = (g, st1) ->
      hosts_at st1 g = ∅ ->
      let st' := exec V1._update_all st in
      getaddrinfo st' = getaddrinfo st
      /\ _ORIGINAL_GETADDRINFO st' = _ORIGINAL_GETADDRINFO st
      /\ _RUNTIME_HOSTS st' = _RUNTIME_HOSTS st
      /\ jobs st' = jobs st
      /\ (forall l, hosts_at st' l = hosts_at st l)
      /\ (forall depth host p a,
             socket_getaddrinfo depth st' host p a =
             socket_getaddrinfo depth st host p a)
      /\ last (log st') = Some (ERROR, PrimaryEmpty)
      /\ sent st' = sent st ++ [GET V1.PRIMARY_URL 15])
  /\ (forall st g st1,
      let cfg := plugin_config st in
      V2._load_hosts (github_url cfg) (exec (logger INFO UpdateStarted) st)
      = (g, st1) ->
      hosts_at st1 g = ∅ ->
      let st' := exec V2._update_all st in
      getaddrinfo st' = getaddrinfo st
      /\ _ORIGINAL_GETADDRINFO st' = _ORIGINAL_GETADDRINFO st
      /\ _RUNTIME_HOSTS st' = _RUNTIME_HOSTS st
      /\ jobs st' = jobs st
      /\ (forall l, hosts_at st' l = hosts_at st l)
      /\ (forall depth host p a,
             socket_getaddrinfo depth st' host p a =
             socket_getaddrinfo depth st host p a)
      /\ last (log st') = Some (ERROR, PrimaryEmpty)
      /\ sent st' = sent st ++ [GET (github_url cfg) 15]).
Proof.
  split.
  - intros st g st1 Hload Hempty st'.
    assert (st' = exec (logger ERROR PrimaryEmpty) st1) as ->.
    { subst st'. unfold exec at 1.
      by rewrite V1_update_all_phases, Hload, bool_decide_eq_true_2. }
    destruct (V1_load_hosts_run V1.PRIMARY_URL st) as (table & lines & Heq & _).
    rewrite Heq in Hload. injection Hload as <- <-.
    assert (table = ∅) as ->.
    { revert Hempty. unfold hosts_at. cbn. by rewrite lookup_snoc_here. }
    assert (forall l, hosts_at (exec (logger ERROR PrimaryEmpty)
              (State (objects st ++ [∅]) (getaddrinfo st)
                 (_ORIGINAL_GETADDRINFO st) (_RUNTIME_HOSTS st) (jobs st)
                 (plugin_config st) (log st ++ lines)
                 (sent st ++ [GET V1.PRIMARY_URL 15]))) l = hosts_at st l) as Hh.
    { intros l. apply (hosts_at_empty_extra _ _ [∅]); [done|]. by repeat constructor. }
    repeat split; try done.
    + intros. unfold socket_getaddrinfo. cbn [getaddrinfo]. by apply call_ext.
    + cbn. by rewrite last_snoc.
  - intros st g st1 cfg Hload Hempty st'. subst cfg.
    assert (st' = exec (logger ERROR PrimaryEmpty) st1) as ->.
    { subst st'. unfold exec at 1. rewrite V2_update_all_phases. cbn zeta.
      by rewrite Hload, bool_decide_eq_true_2. }
    destruct (V2_load_hosts_run (github_url (plugin_config st))
                 (exec (logger INFO UpdateStarted) st)) as [[text E]|[e E]];
      rewrite E in Hload; injection Hload as <- <-.
    + assert (parse text = ∅) as Ht.
      { revert Hempty. unfold hosts_at. cbn. by rewrite lookup_snoc_here. }
      rewrite Ht.
      assert (forall l, hosts_at (exec (logger ERROR PrimaryEmpty)
                (State (objects (exec (logger INFO UpdateStarted) st) ++ [∅])
                   (getaddrinfo st) (_ORIGINAL_GETADDRINFO st)
                   (_RUNTIME_HOSTS st) (jobs st) (plugin_config st)
                   (log (exec (logger INFO UpdateStarted) st) ++
                      [(INFO, Loaded (size (∅ : hosts))
                                (github_url (plugin_config st)))])
                   (sent st ++ [GET (github_url (plugin_config st)) 15]))) l
              = hosts_at st l) as Hh.
      { intros l. apply (hosts_at_empty_extra _ _ [∅]); [done|]. by repeat constructor. }
      repeat split; try done.
      * intros. unfold socket_getaddrinfo. cbn [getaddrinfo]. by apply call_ext.
      * cbn. by rewrite last_snoc.
    + assert (forall l, hosts_at (exec (logger ERROR PrimaryEmpty)
                (State (objects (exec (logger INFO UpdateStarted) st) ++ [∅; ∅])
                   (getaddrinfo st) (_ORIGINAL_GETADDRINFO st)
                   (_RUNTIME_HOSTS st) (jobs st) (plugin_config st)
                   (log (exec (logger INFO UpdateStarted) st) ++
                      [(ERROR, FetchFailed (github_url (plugin_config st)) e)])
                   (sent st ++ [GET (github_url (plugin_config st)) 15]))) l
              = hosts_at st l) as Hh.
      { intros l. apply (hosts_at_empty_extra _ _ [∅; ∅]); [done|]. by repeat constructor. }
      repeat split; try done.
      * intros. unfold socket_getaddrinfo. cbn [getaddrinfo]. by apply call_ext.
      * cbn. by rewrite last_snoc.
Qed.

(** ** The module-level cache *)

(** What the first variant's pipeline never touches, whatever the sources
    and the probe answer: the captured original, the cache name, the jobs,
    and every dict that existed before the run. *)
Lemma V1_update_all_frame st :
  let st' := exec V1._update_all st in
  _ORIGINAL_GETADDRINFO st' = _ORIGINAL_GETADDRINFO st
  /\ _RUNTIME_HOSTS st' = _RUNTIME_HOSTS st
  /\ jobs st' = jobs st
  /\ (forall l, l < length (objects st) -> hosts_at st' l = hosts_at st l).
Proof.
  cbv zeta.
  remember (exec V1._update_all st) as st' eqn:Hst'.
  unfold exec in Hst'. rewrite V1_update_all_phases in Hst'.
  destruct (V1_load_hosts_frame V1.PRIMARY_URL st) as (g & extra & lines & E & Hg).
  rewrite E in Hst'. destruct (bool_decide _).
  { subst st'. repeat split; try done.
    intros l Hl. unfold hosts_at. cbn. by rewrite lookup_app_l. }
  rewrite V1_patch_run in Hst'. cbn [objects getaddrinfo _ORIGINAL_GETADDRINFO
    _RUNTIME_HOSTS jobs plugin_config log sent] in Hst'.
  match type of Hst' with context [V1._probe_github ?s] =>
    destruct (V1_probe_run s) as (ok & line & Hp) end.
  rewrite Hp in Hst'. cbn [objects getaddrinfo _ORIGINAL_GETADDRINFO
    _RUNTIME_HOSTS jobs plugin_config log sent] in Hst'.
  destruct ok; cbn [negb] in Hst'.
  2: { subst st'. repeat split; try done.
       intros l Hl. unfold hosts_at. cbn. by rewrite lookup_app_l. }
  unfold mbind at 1, M_bind at 1 in Hst'.
  match type of Hst' with context [V1._load_hosts V1.TMDB_IPV4_URL ?s] =>
    destruct (V1_load_hosts_frame V1.TMDB_IPV4_URL s)
      as (t & extra4 & lines4 & E4 & Ht) end.
  rewrite E4 in Hst'. cbn [objects getaddrinfo _ORIGINAL_GETADDRINFO
    _RUNTIME_HOSTS jobs plugin_config log sent] in *.
  unfold mbind at 1, M_bind at 1 in Hst'.
  match type of Hst' with context [V1._load_hosts V1.TMDB_IPV6_URL ?s] =>
    destruct (V1_load_hosts_frame V1.TMDB_IPV6_URL s)
      as (t6 & extra6 & lines6 & E6 & Ht6) end.
  rewrite E6 in Hst'. cbn [objects getaddrinfo _ORIGINAL_GETADDRINFO
    _RUNTIME_HOSTS jobs plugin_config log sent] in *.
  rewrite ?length_app in *. subst st'.
  cbv [mbind M_bind mret M_ret dict_update dict_len gets logger modify V1._patch].
  repeat split; try done.
  intros l Hl. unfold hosts_at. cbn.
  rewrite !list_lookup_insert_ne by lia.
  by rewrite !lookup_app_l by (rewrite ?length_app; lia).
Qed.



End Pipeline.

(** ** Merging tables *)





(** ** Fetching a source *)

Lemma raise_for_status_rejects code :
  (400 <= code < 600)%Z -> raise_for_status code = Some (HTTPError code).
Proof.
  intros [H1 H2]. unfold raise_for_status.
  apply Z.leb_le in H1. apply Z.ltb_lt in H2. by rewrite H1, H2.
Qed.

Lemma raise_for_status_accepts code :
  ~ (400 <= code < 600)%Z -> raise_for_status code = None.
Proof.
  intros H. unfold raise_for_status.
  destruct (400 <=? code)%Z eqn:H1; [|done].
  destruct (code <? 600)%Z eqn:H2; [|done].
  apply Z.leb_le in H1. apply Z.ltb_lt in H2. lia.
Qed.

Lemma lookup_snoc2_here {A} (l : list A) x y :
  (l ++ [x; y]) !! S (length l) = Some y.
Proof.
  rewrite lookup_app_r by lia.
  by replace (S (length l) - length l) with 1 by lia.
Qed.

Lemma V1_load_hosts_cases `{W : World} url st :
  V1._load_hosts url st =
  (length (objects st),
   let failed e :=
     State (objects st ++ [∅]) (getaddrinfo st) (_ORIGINAL_GETADDRINFO st)
           (_RUNTIME_HOSTS st) (jobs st) (plugin_config st)
           (log st ++ [(ERROR, FetchFailed url e)]) (sent st ++ [GET url 15]) in
   match requests_send (exec (new_dict ∅) st) (GET url 15) with
   | Raised e => failed e
   | Response code text =>
       match raise_for_status code with
       | Some e => failed e
       | None =>
           State (objects st ++ [parse text]) (getaddrinfo st)
                 (_ORIGINAL_GETADDRINFO st) (_RUNTIME_HOSTS st) (jobs st)
                 (plugin_config st) (log st) (sent st ++ [GET url 15])
       end
   end).
Proof.
  unfold V1._load_hosts, fetch_text, requests_call, new_dict, logger, modify.
  unfold mbind, M_bind, mret, M_ret, exec. cbn.
  destruct (requests_send _ _) as [e|code text]; [|destruct (raise_for_status code)];
    cbn; unfold set_objects, set_log, set_sent; cbn; try done.
  by rewrite insert_snoc_here.
Qed.

Lemma V2_load_hosts_cases `{W : World} url st :
  V2._load_hosts url st =
  let failed e :=
    (S (length (objects st)),
     State (objects st ++ [∅; ∅]) (getaddrinfo st) (_ORIGINAL_GETADDRINFO st)
           (_RUNTIME_HOSTS st) (jobs st) (plugin_config st)
           (log st ++ [(ERROR, FetchFailed url e)]) (sent st ++ [GET url 15])) in
  match requests_send (exec (new_dict ∅) st) (GET url 15) with
  | Raised e => failed e
  | Response code text =>
      match raise_for_status code with
      | Some e => failed e
      | None =>
          (length (objects st),
           State (objects st ++ [parse text]) (getaddrinfo st)
                 (_ORIGINAL_GETADDRINFO st) (_RUNTIME_HOSTS st) (jobs st)
                 (plugin_config st)
                 (log st ++ [(INFO, Loaded (size (parse text)) url)])
                 (sent st ++ [GET url 15]))
      end
  end.
Proof.
  unfold V2._load_hosts, fetch_text, requests_call, new_dict, logger, modify,
    dict_len, gets.
  unfold mbind, M_bind, mret, M_ret, exec. cbn.
  destruct (requests_send _ _) as [e|code text]; [|destruct (raise_for_status code)];
    cbn; unfold set_objects, set_log, set_sent, hosts_at; cbn.
  - by rewrite length_app, Nat.add_1_r, <- app_assoc.
  - by rewrite length_app, Nat.add_1_r, <- app_assoc.
  - by rewrite insert_snoc_here, lookup_snoc_here.
Qed.

(** C7, as the code has it.  [_load_hosts] always returns a dict.  When the
    GET raises (no connection, timeout) or the response has a status from 400
    to 599, which is what [raise_for_status] rejects, the dict is empty and
    one error line with the URL and the cause is logged.  On every other
    response, whatever its status, the dict is the parse of the body and no
    error is logged.  [h1], [s1]: first variant; [h2], [s2]: second. *)
Theorem fetch_failure_gives_empty_table `{W : World} url st :
  let answer := requests_send (exec (new_dict ∅) st) (GET url 15) in
  let h1 := eval (V1._load_hosts url) st in
  let s1 := exec (V1._load_hosts url) st in
  let h2 := eval (V2._load_hosts url) st in
  let s2 := exec (V2._load_hosts url) st in
  sent s1 = sent st ++ [GET url 15]
  /\ sent s2 = sent st ++ [GET url 15]
  /\ match answer with
     | Raised e =>
         hosts_at s1 h1 = ∅ /\ log s1 = log st ++ [(ERROR, FetchFailed url e)]
         /\ hosts_at s2 h2 = ∅ /\ log s2 = log st ++ [(ERROR, FetchFailed url e)]
     | Response code text =>
         if decide (400 <= code < 600)%Z then
           hosts_at s1 h1 = ∅
           /\ log s1 = log st ++ [(ERROR, FetchFailed url (HTTPError code))]
           /\ hosts_at s2 h2 = ∅
           /\ log s2 = log st ++ [(ERROR, FetchFailed url (HTTPError code))]
         else
           hosts_at s1 h1 = parse text /\ log s1 = log st
           /\ hosts_at s2 h2 = parse text
           /\ log s2 = log st ++ [(INFO, Loaded (size (parse text)) url)]
     end.
Proof.
  pose proof (V1_load_hosts_cases url st) as E1.
  pose proof (V2_load_hosts_cases url st) as E2.
  cbv zeta in *. unfold eval, exec in *. revert E1 E2.
  destruct (requests_send _ _) as [e|code text].
  - intros -> ->. unfold hosts_at. cbn.
    by rewrite lookup_snoc_here, lookup_snoc2_here.
  - destruct (decide (400 <= code < 600)%Z) as [Hc|Hc].
    + rewrite raise_for_status_rejects by done. intros -> ->.
      unfold hosts_at. cbn. by rewrite lookup_snoc_here, lookup_snoc2_here.
    + rewrite raise_for_status_accepts by done. intros -> ->.
      unfold hosts_at. cbn. by rewrite !lookup_snoc_here.
Qed.

(** ** Enabling and disabling *)

Lemma exec_bind {A B} (m : M A) (f : A -> M B) st :
  exec (m ≫= f) st = exec (f (eval m st)) (exec m st).
Proof. unfold exec, eval, mbind, M_bind. by destruct (m st). Qed.

Lemma V1_disable_run st :
  exec V1._disable st =
  State (<[_RUNTIME_HOSTS st := ∅]> (objects st)) (_ORIGINAL_GETADDRINFO st)
        (_ORIGINAL_GETADDRINFO st) (_RUNTIME_HOSTS st) (delete JOB_ID (jobs st))
        (plugin_config st) (log st ++ [(INFO, PluginDisabled)]) (sent st).
Proof. done. Qed.

Lemma V2_disable_run st :
  exec V2._disable st =
  State (<[_RUNTIME_HOSTS st := ∅]> (objects st)) (_ORIGINAL_GETADDRINFO st)
        (_ORIGINAL_GETADDRINFO st) (_RUNTIME_HOSTS st) (jobs st)
        (plugin_config st) (log st ++ [(INFO, PluginDisabled)]) (sent st).
Proof. done. Qed.

Lemma hosts_at_cleared (objs : list hosts) l :
  default ∅ (<[l := ∅]> objs !! l) = ∅.
Proof.
  destruct (decide (l < length objs)).
  - by rewrite list_lookup_insert_eq.
  - by rewrite lookup_ge_None_2 by (rewrite length_insert; lia).
Qed.

(** In the second variant [_enable] ends with [_ORIGINAL_GETADDRINFO] bound
    to whatever [socket.getaddrinfo] is after the update. *)
Lemma V2_enable_captures_installed `{W : World} st :
  _ORIGINAL_GETADDRINFO (exec V2._enable st) = getaddrinfo (exec V2._enable st).
Proof. unfold V2._enable. rewrite exec_bind. done. Qed.

(** In the first variant nothing assigns [_ORIGINAL_GETADDRINFO]: however
    often the plugin is enabled and disabled, the name keeps the function
    captured when the module was loaded. *)
Lemma V1_original_is_never_rebound `{W : World} configs st :
  _ORIGINAL_GETADDRINFO (exec (V1.reconfigure configs) st)
  = _ORIGINAL_GETADDRINFO st.
Proof.
  revert st. induction configs as [|c configs IH]; intros st; [done|].
  cbn [V1.reconfigure]. rewrite exec_bind, IH.
  unfold V1.init_plugin. destruct (match c with Some _ => _ | None => _ end).
  - unfold V1._enable. rewrite exec_bind.
    transitivity (_ORIGINAL_GETADDRINFO (exec V1._update_all st)); [done|].
    apply V1_update_all_frame.
  - by rewrite V1_disable_run.
Qed.

(** X14.  So in the first variant [_disable] puts the platform function
    itself back, after any number of cycles. *)
Lemma V1_disable_restores_platform_function `{W : World} configs st :
  _ORIGINAL_GETADDRINFO st = Original ->
  getaddrinfo (exec V1._disable (exec (V1.reconfigure configs) st)) = Original.
Proof.
  intros Ho. by rewrite V1_disable_run, V1_original_is_never_rebound.
Qed.


(** ** The cache and the table the resolver reads *)


(** ** The second variant after [_enable] *)

(** C4, at a failing input of the second variant.  In scenario A,
    [init_plugin] with the default config runs [_enable], which rebinds
    [_ORIGINAL_GETADDRINFO] to the closure that [_update_all] has just
    installed.  From then on a name that is not in the table is never handed
    to the platform function: the closure calls itself until the stack is
    used up, whatever the depth allowed. *)
Theorem V2_miss_after_enable_never_reaches_platform :
  let st := exec (V2.init_plugin (W := Sample.scenario_A) None)
                 (module_loaded V2.DEFAULT_CONFIG) in
  getaddrinfo st = Patched 4
  /\ _ORIGINAL_GETADDRINFO st = Patched 4
  /\ hosts_at st 4 !! Py.lower "example.org" = None
  /\ forall depth p a,
       socket_getaddrinfo (W := Sample.scenario_A) depth st "example.org" p a
       = Reply [] RecursionError.
Proof.
  cbv zeta.
  assert (getaddrinfo (exec (V2.init_plugin (W := Sample.scenario_A) None)
                            (module_loaded V2.DEFAULT_CONFIG)) = Patched 4)
    as Hg by (vm_compute; reflexivity).
  assert (_ORIGINAL_GETADDRINFO
            (exec (V2.init_plugin (W := Sample.scenario_A) None)
                  (module_loaded V2.DEFAULT_CONFIG)) = Patched 4)
    as Ho by (vm_compute; reflexivity).
  assert (hosts_at (exec (V2.init_plugin (W := Sample.scenario_A) None)
                         (module_loaded V2.DEFAULT_CONFIG)) 4
          !! Py.lower "example.org" = None)
    as Hm by (vm_compute; reflexivity).
  revert Hg Ho Hm.
  generalize (exec (V2.init_plugin (W := Sample.scenario_A) None)
                   (module_loaded V2.DEFAULT_CONFIG)).
  intros st Hg Ho Hm.
  split; [exact Hg|]. split; [exact Ho|]. split; [exact Hm|].
  intros depth p a. unfold socket_getaddrinfo. rewrite Hg.
  exact (call_miss_recursion depth st 4 4 _ p a Ho Hm Hm).
Qed.

(** C6, at a failing input of the second variant.  In scenario A, after
    [init_plugin] with the default config and then [_disable],
    [socket.getaddrinfo] is not the platform function but the closure made
    during the update, and [_ORIGINAL_GETADDRINFO] is that closure too.  Its
    dict is the one [_RUNTIME_HOSTS] was bound to, which [_disable] has just
    emptied, so every resolution of the process now ends in the recursion
    error. *)
Theorem V2_disable_leaves_the_closure_installed :
  let st := exec V2._disable
                 (exec (V2.init_plugin (W := Sample.scenario_A) None)
                       (module_loaded V2.DEFAULT_CONFIG)) in
  getaddrinfo st = Patched 4
  /\ getaddrinfo st <> Original
  /\ _ORIGINAL_GETADDRINFO st = Patched 4
  /\ _RUNTIME_HOSTS st = 4
  /\ hosts_at st 4 = ∅
  /\ forall depth host p a,
       socket_getaddrinfo (W := Sample.scenario_A) depth st host p a
       = Reply [] RecursionError.
Proof.
  cbv zeta.
  assert (getaddrinfo
            (exec V2._disable
                  (exec (V2.init_plugin (W := Sample.scenario_A) None)
                        (module_loaded V2.DEFAULT_CONFIG))) = Patched 4)
    as Hg by (vm_compute; reflexivity).
  assert (_ORIGINAL_GETADDRINFO
            (exec V2._disable
                  (exec (V2.init_plugin (W := Sample.scenario_A) None)
                        (module_loaded V2.DEFAULT_CONFIG))) = Patched 4)
    as Ho by (vm_compute; reflexivity).
  assert (_RUNTIME_HOSTS
            (exec V2._disable
                  (exec (V2.init_plugin (W := Sample.scenario_A) None)
                        (module_loaded V2.DEFAULT_CONFIG))) = 4)
    as Hr by (vm_compute; reflexivity).
  assert (hosts_at
            (exec V2._disable
                  (exec (V2.init_plugin (W := Sample.scenario_A) None)
                        (module_loaded V2.DEFAULT_CONFIG))) 4 = ∅)
    as Hm by (vm_compute; reflexivity).
  revert Hg Ho Hr Hm.
  generalize (exec V2._disable
                   (exec (V2.init_plugin (W := Sample.scenario_A) None)
                         (module_loaded V2.DEFAULT_CONFIG))).
  intros st Hg Ho Hr Hm.
  split; [exact Hg|]. split; [rewrite Hg; discriminate|].
  split; [exact Ho|]. split; [exact Hr|]. split; [exact Hm|].
  intros depth host p a. unfold socket_getaddrinfo. rewrite Hg.
  apply (call_miss_recursion depth st 4 4); [exact Ho| |]; rewrite Hm;
    apply lookup_empty.
Qed.

(** ** Inputs at which a sentence of the specification fails *)


(** C7.  A response with status 300 and a hosts body: the status is not a
    2xx one, yet the body is parsed, the dict is not empty and no error is
    logged. *)
Lemma status_300_body_is_parsed :
  let W := Sample.world (Response 300 Sample.github_body)
                        (Response 200 EmptyString)
                        (Response 200 Sample.tmdb_body)
                        (Response 200 EmptyString) in
  let st0 := module_loaded V2.DEFAULT_CONFIG in
  let h := eval (V1._load_hosts V1.PRIMARY_URL) st0 in
  let st' := exec (V1._load_hosts V1.PRIMARY_URL) st0 in
  hosts_at st' h !! "github.com" = Some ("140.82.112.3", AF_INET)
  /\ hosts_at st' h <> ∅
  /\ log st' = [].
Proof.
  cbv zeta.
  match goal with |- ?h !! _ = _ /\ _ =>
    assert (h !! "github.com" = Some ("140.82.112.3", AF_INET)) as Hin
      by (vm_compute; reflexivity)
  end.
  split; [exact Hin|]. split; [|vm_compute; reflexivity].
  intros E. rewrite E, lookup_empty in Hin. discriminate.
Qed.


(** ** The theorems at concrete inputs *)

Example line_entry_ipv6 :
  line_entry (W := Sample.scenario_A)
    ("2606:4700::6810:84e5" +:+ Sample.TAB +:+ "alias  API.TheMovieDB.org ")
  = Some ("api.themoviedb.org", ("2606:4700::6810:84e5", AF_INET6)).
Proof. vm_compute. reflexivity. Qed.

Example line_entry_skipped :
  line_entry (W := Sample.scenario_A) "999.1.1.1 bad.example" = None
  /\ line_entry (W := Sample.scenario_A) "1.2.3.4" = None
  /\ line_entry (W := Sample.scenario_A) "  # 1.2.3.4 commented.example" = None
  /\ line_entry (W := Sample.scenario_A) Sample.TAB = None.
Proof. vm_compute. done. Qed.

Example parse_last_line_wins :
  parse (W := Sample.scenario_A)
    ("1.1.1.1 Host.Example" +:+ Sample.LF +:+ "# note" +:+ Sample.CR +:+ Sample.LF
     +:+ "2.2.2.2 host.example" +:+ Sample.LF +:+ "oops host.example")
  !! "host.example" = Some ("2.2.2.2", AF_INET).
Proof. vm_compute. reflexivity. Qed.

(** Scenario A ends with three entries in the installed table. *)
Example scenario_A_final_table :
  let st' := exec (V2._update_all (W := Sample.scenario_A))
                  (module_loaded V2.DEFAULT_CONFIG) in
  getaddrinfo st' = Patched 4
  /\ size (hosts_at st' 4) = 3
  /\ hosts_at st' 4 !! "api.themoviedb.org" = Some ("104.244.42.1", AF_INET).
Proof. vm_compute. done. Qed.


Lemma hit_gives_one_stream_entry_witness :
  let st := exec (V1._update_all (W := Sample.scenario_A))
                 (module_loaded V2.DEFAULT_CONFIG) in
  let datagram := Hints 0 2 17 0 in
  getaddrinfo st = Patched 1
  /\ hosts_at st 1 !! Py.lower "GitHub.COM" = Some ("140.82.112.3", AF_INET)
  /\ socket_getaddrinfo (W := Sample.scenario_A) 1000 st
                        "GitHub.COM" (PortNum 53) datagram
     = Reply [] (Synthesized [(AF_INET, SOCK_STREAM, 0%Z, EmptyString,
                               ("140.82.112.3", PortNum 53))]).
Proof.
  cbv zeta.
  assert (getaddrinfo (exec (V1._update_all (W := Sample.scenario_A))
                            (module_loaded V2.DEFAULT_CONFIG)) = Patched 1)
    as Hg by (vm_compute; reflexivity).
  assert (hosts_at (exec (V1._update_all (W := Sample.scenario_A))
                         (module_loaded V2.DEFAULT_CONFIG)) 1
          !! Py.lower "GitHub.COM" = Some ("140.82.112.3", AF_INET))
    as Hh by (vm_compute; reflexivity).
  split; [exact Hg|]. split; [exact Hh|].
  exact (hit_gives_one_stream_entry (W := Sample.scenario_A)
           1000 _ 1 "GitHub.COM" (PortNum 53) (Hints 0 2 17 0) _ _ Hg Hh).
Defined.






Lemma empty_primary_aborts_run_witness :
  let st0 := module_loaded V2.DEFAULT_CONFIG in
  (getaddrinfo (exec (V1._update_all (W := Sample.scenario_B)) st0) = Original
   /\ last (log (exec (V1._update_all (W := Sample.scenario_B)) st0))
      = Some (ERROR, PrimaryEmpty)
   /\ sent (exec (V1._update_all (W := Sample.scenario_B)) st0)
      = [GET V1.PRIMARY_URL 15])
  /\ (getaddrinfo (exec (V2._update_all (W := Sample.scenario_B)) st0) = Original
      /\ last (log (exec (V2._update_all (W := Sample.scenario_B)) st0))
         = Some (ERROR, PrimaryEmpty)
      /\ sent (exec (V2._update_all (W := Sample.scenario_B)) st0)
         = [GET (github_url V2.DEFAULT_CONFIG) 15]).
Proof.
  cbv zeta. split.
  - assert (V1._load_hosts (W := Sample.scenario_B) V1.PRIMARY_URL
              (module_loaded V2.DEFAULT_CONFIG)
            = (1, exec (V1._load_hosts (W := Sample.scenario_B) V1.PRIMARY_URL)
                       (module_loaded V2.DEFAULT_CONFIG)))
      as H1 by (vm_compute; reflexivity).
    assert (hosts_at (exec (V1._load_hosts (W := Sample.scenario_B) V1.PRIMARY_URL)
                           (module_loaded V2.DEFAULT_CONFIG)) 1 = ∅)
      as H2 by (vm_compute; reflexivity).
    destruct (proj1 (empty_primary_aborts_run (W := Sample.scenario_B))
                _ _ _ H1 H2) as (Hg & _ & _ & _ & _ & _ & Hl & Hs).
    split; [exact Hg|]. split; [exact Hl|exact Hs].
  - assert (V2._load_hosts (W := Sample.scenario_B)
              (github_url (plugin_config (module_loaded V2.DEFAULT_CONFIG)))
              (exec (logger INFO UpdateStarted) (module_loaded V2.DEFAULT_CONFIG))
            = (1, exec (V2._load_hosts (W := Sample.scenario_B)
                          (github_url V2.DEFAULT_CONFIG))
                       (exec (logger INFO UpdateStarted)
                             (module_loaded V2.DEFAULT_CONFIG))))
      as H1 by (vm_compute; reflexivity).
    assert (hosts_at (exec (V2._load_hosts (W := Sample.scenario_B)
                              (github_url V2.DEFAULT_CONFIG))
                           (exec (logger INFO UpdateStarted)
                                 (module_loaded V2.DEFAULT_CONFIG))) 1 = ∅)
      as H2 by (vm_compute; reflexivity).
    destruct (proj2 (empty_primary_aborts_run (W := Sample.scenario_B))
                _ _ _ H1 H2) as (Hg & _ & _ & _ & _ & _ & Hl & Hs).
    split; [exact Hg|]. split; [exact Hl|exact Hs].
Defined.



(** * Further properties of the code *)

(** ** Fetching and probing, answer by answer *)

Section AnswerFacts.
Context `{W : World}.

Lemma V1_load_hosts_answer url st :
  let answer := requests_send (exec (new_dict ∅) st) (GET url 15) in
  V1._load_hosts url st =
  (length (objects st),
   State (objects st ++ [fetched answer]) (getaddrinfo st)
         (_ORIGINAL_GETADDRINFO st) (_RUNTIME_HOSTS st) (jobs st)
         (plugin_config st) (log st ++ V1_fetch_log url answer)
         (sent st ++ [GET url 15])).
Proof.
  cbv zeta. rewrite V1_load_hosts_cases. cbv zeta.
  unfold fetched, V1_fetch_log, fetch_error.
  destruct (requests_send _ _) as [e|code text]; [done|].
  destruct (raise_for_status code); [done|]. by rewrite app_nil_r.
Qed.

Lemma V2_load_hosts_answer url st :
  let answer := requests_send (exec (new_dict ∅) st) (GET url 15) in
  V2._load_hosts url st =
  (length (objects st) + length (V2_dropped answer),
   State (objects st ++ V2_dropped answer ++ [fetched answer]) (getaddrinfo st)
         (_ORIGINAL_GETADDRINFO st) (_RUNTIME_HOSTS st) (jobs st)
         (plugin_config st) (log st ++ [V2_fetch_log url answer])
         (sent st ++ [GET url 15])).
Proof.
  cbv zeta. rewrite V2_load_hosts_cases. cbv zeta.
  unfold fetched, V2_fetch_log, V2_dropped, fetch_error, fetched, fetch_error.
  destruct (requests_send _ _) as [e|code text];
    [by rewrite Nat.add_1_r|].
  destruct (raise_for_status code); [by rewrite Nat.add_1_r|].
  by rewrite Nat.add_0_r.
Qed.

Lemma V1_probe_answer st :
  let answer := requests_send st (HEAD V1.PROBE_URL 5) in
  V1._probe_github st =
  (probe_passes answer,
   State (objects st) (getaddrinfo st) (_ORIGINAL_GETADDRINFO st)
         (_RUNTIME_HOSTS st) (jobs st) (plugin_config st)
         (log st ++ [probe_log V1.PROBE_URL answer])
         (sent st ++ [HEAD V1.PROBE_URL 5])).
Proof.
  cbv zeta. unfold V1._probe_github, requests_call, logger, modify.
  unfold mbind, M_bind, mret, M_ret, probe_passes, probe_log, fetch_error. cbn.
  destruct (requests_send _ _) as [e|code text]; [done|].
  by destruct (raise_for_status code).
Qed.

Lemma V2_probe_answer url st :
  let answer := requests_send st (HEAD url 5) in
  V2._probe_connectivity url st =
  (probe_passes answer,
   State (objects st) (getaddrinfo st) (_ORIGINAL_GETADDRINFO st)
         (_RUNTIME_HOSTS st) (jobs st) (plugin_config st)
         (log st ++ [probe_log url answer])
         (sent st ++ [HEAD url 5])).
Proof.
  cbv zeta. unfold V2._probe_connectivity, requests_call, logger, modify.
  unfold mbind, M_bind, mret, M_ret, probe_passes, probe_log, fetch_error. cbn.
  destruct (requests_send _ _) as [e|code text]; [done|].
  by destruct (raise_for_status code).
Qed.

Lemma probe_passes_iff answer :
  probe_passes answer = true <->
  exists code text, answer = Response code text /\ ~ (400 <= code < 600)%Z.
Proof.
  unfold probe_passes, fetch_error. destruct answer as [e|code text].
  - split; [done|]. by intros (? & ? & ? & _).
  - destruct (decide (400 <= code < 600)%Z) as [Hc|Hc].
    + rewrite raise_for_status_rejects by done.
      split; [done|]. intros (c & t & [= <- <-] & Hn). done.
    + rewrite raise_for_status_accepts by done. split; [|done]. eauto.
Qed.

(** X1.  The probes of both variants return true exactly when the HEAD
    request comes back with a response whose status is not between 400 and
    599: an exception of any kind or a 4xx/5xx status gives false, never an
    exception.  A probe sends that one HEAD with timeout 5 and logs one
    line; it leaves the dicts, the resolver, the two module globals, the
    jobs and the config as they were. *)
Theorem probe_true_iff_status_accepted url st :
  let a1 := requests_send st (HEAD V1.PROBE_URL 5) in
  let a2 := requests_send st (HEAD url 5) in
  let s1 := exec V1._probe_github st in
  let s2 := exec (V2._probe_connectivity url) st in
  (eval V1._probe_github st = true <->
   exists code text, a1 = Response code text /\ ~ (400 <= code < 600)%Z)
  /\ (eval (V2._probe_connectivity url) st = true <->
      exists code text, a2 = Response code text /\ ~ (400 <= code < 600)%Z)
  /\ sent s1 = sent st ++ [HEAD V1.PROBE_URL 5]
  /\ sent s2 = sent st ++ [HEAD url 5]
  /\ length (log s1) = S (length (log st))
  /\ length (log s2) = S (length (log st))
  /\ set_sent (sent st) (set_log (log st) s1) = st
  /\ set_sent (sent st) (set_log (log st) s2) = st.
Proof.
  cbv zeta. unfold eval, exec.
  rewrite V1_probe_answer, V2_probe_answer. cbv zeta. cbn.
  rewrite !length_app. cbn. rewrite !Nat.add_1_r.
  repeat split; try apply probe_passes_iff; try done; by destruct st.
Qed.

(** X5.  The dict [_load_hosts] returns is a new object: its location lies
    beyond every dict that existed before the call, those dicts are all still
    there with their content, and the call leaves the resolver, the two
    module globals, the jobs and the config alone.  The returned dict holds
    what the answer of the network gives ([fetched]). *)
Theorem load_hosts_returns_new_dict url st :
  let answer := requests_send (exec (new_dict ∅) st) (GET url 15) in
  let h1 := eval (V1._load_hosts url) st in
  let s1 := exec (V1._load_hosts url) st in
  let h2 := eval (V2._load_hosts url) st in
  let s2 := exec (V2._load_hosts url) st in
  (length (objects st) <= h1 < length (objects s1)
   /\ take (length (objects st)) (objects s1) = objects st
   /\ hosts_at s1 h1 = fetched answer
   /\ set_objects (objects st) (set_sent (sent st) (set_log (log st) s1)) = st)
  /\ (length (objects st) <= h2 < length (objects s2)
      /\ take (length (objects st)) (objects s2) = objects st
      /\ hosts_at s2 h2 = fetched answer
      /\ set_objects (objects st) (set_sent (sent st) (set_log (log st) s2)) = st).
Proof.
  cbv zeta. unfold eval, exec.
  rewrite V1_load_hosts_answer, V2_load_hosts_answer. cbv zeta. cbn.
  unfold hosts_at. cbn. rewrite !length_app, !take_app_length. cbn.
  rewrite lookup_snoc_here.
  rewrite (app_assoc (objects st)), <- (length_app (objects st)), lookup_snoc_here.
  repeat split; rewrite ?length_app; try lia; try done; by destruct st.
Qed.

End AnswerFacts.

(** ** Whole runs over a network that answers by the request alone *)

Section StatelessNetwork.
Context `{W : World}.
Variable net : request -> http_result.
Hypothesis Hnet : forall st rq, requests_send st rq = net rq.

Lemma V1_load_hosts_net url st :
  V1._load_hosts url st =
  (length (objects st),
   State (objects st ++ [fetched (net (GET url 15))]) (getaddrinfo st)
         (_ORIGINAL_GETADDRINFO st) (_RUNTIME_HOSTS st) (jobs st)
         (plugin_config st) (log st ++ V1_fetch_log url (net (GET url 15)))
         (sent st ++ [GET url 15])).
Proof. rewrite V1_load_hosts_answer. cbv zeta. by rewrite Hnet. Qed.

Lemma V1_probe_net st :
  V1._probe_github st =
  (probe_passes (net (HEAD V1.PROBE_URL 5)),
   State (objects st) (getaddrinfo st) (_ORIGINAL_GETADDRINFO st)
         (_RUNTIME_HOSTS st) (jobs st) (plugin_config st)
         (log st ++ [probe_log V1.PROBE_URL (net (HEAD V1.PROBE_URL 5))])
         (sent st ++ [HEAD V1.PROBE_URL 5])).
Proof. rewrite V1_probe_answer. cbv zeta. by rewrite Hnet. Qed.

Lemma hosts_at_snoc objs d r o h j c l s :
  hosts_at (State (objs ++ [d]) r o h j c l s) (length objs) = d.
Proof. unfold hosts_at. cbn. by rewrite lookup_snoc_here. Qed.

(** The merge phase of the first variant, on three tables in a row. *)
Lemma V1_merge_objects (objs : list hosts) (P T4 T6 : hosts) :
  let l3 := ((objs ++ [P]) ++ [T4]) ++ [T6] in
  let t := length (objs ++ [P]) in
  let t6 := length ((objs ++ [P]) ++ [T4]) in
  let l3' := <[t := default ∅ (l3 !! t6) ∪ default ∅ (l3 !! t)]> l3 in
  <[length objs := default ∅ (l3' !! t) ∪ default ∅ (l3' !! length objs)]> l3'
  = objs ++ [(T6 ∪ T4) ∪ P; T6 ∪ T4; T6].
Proof.
  cbv zeta. rewrite !length_app. cbn [length].
  rewrite <- !app_assoc. cbn [app].
  assert (forall (xs : list hosts) i,
             (objs ++ xs) !! (length objs + i) = xs !! i) as Hl.
  { intros xs i. rewrite lookup_app_r by lia. f_equal. lia. }
  assert (forall (xs : list hosts) i x,
             <[length objs + i := x]> (objs ++ xs) = objs ++ <[i := x]> xs) as Hi.
  { intros xs i x. apply insert_app_r. }
  rewrite <- (Nat.add_assoc (length objs) 1 1). rewrite !Hl. cbn.
  rewrite Hi. cbn. rewrite Hl. cbn.
  rewrite list_lookup_middle by done. cbn.
  rewrite <- (Nat.add_0_r (length objs)) at 1. by rewrite Hi.
Qed.

(** X2.  First variant, over a network whose answers depend on the request
    alone.  A run of [_update_all] ends in one of three ways, decided by the
    primary table and the probe.  Empty primary table: the resolver is left
    as it was, after the primary GET only.  Primary table but no probe:
    the resolver is closed over a new dict holding the primary table, after
    the GET and the HEAD.  Probe passed: the same new dict now holds the
    IPv6 table over the IPv4 table over the primary table (the later source
    wins on a shared name), after four requests; the last log line gives the
    number of entries.  A secondary source that fails counts as an empty
    table and does not stop the run. *)
Theorem V1_update_all_outcome st :
  let primary := fetched (net (GET V1.PRIMARY_URL 15)) in
  let tmdb4 := fetched (net (GET V1.TMDB_IPV4_URL 15)) in
  let tmdb6 := fetched (net (GET V1.TMDB_IPV6_URL 15)) in
  let g := length (objects st) in
  let st' := exec V1._update_all st in
  if decide (primary = ∅) then
    getaddrinfo st' = getaddrinfo st
    /\ sent st' = sent st ++ [GET V1.PRIMARY_URL 15]
    /\ last (log st') = Some (ERROR, PrimaryEmpty)
  else if probe_passes (net (HEAD V1.PROBE_URL 5)) then
    getaddrinfo st' = Patched g
    /\ hosts_at st' g = (tmdb6 ∪ tmdb4) ∪ primary
    /\ (forall k, hosts_at st' g !! k =
                  match tmdb6 !! k, tmdb4 !! k with
                  | Some e, _ => Some e
                  | None, Some e => Some e
                  | None, None => primary !! k
                  end)
    /\ sent st' = sent st ++ [GET V1.PRIMARY_URL 15; HEAD V1.PROBE_URL 5;
                              GET V1.TMDB_IPV4_URL 15; GET V1.TMDB_IPV6_URL 15]
    /\ last (log st') = Some (INFO, Merged (size ((tmdb6 ∪ tmdb4) ∪ primary)))
  else
    getaddrinfo st' = Patched g
    /\ hosts_at st' g = primary
    /\ sent st' = sent st ++ [GET V1.PRIMARY_URL 15; HEAD V1.PROBE_URL 5]
    /\ last (log st') = Some (ERROR, GateClosed).
Proof.
  cbv zeta.
  remember (exec V1._update_all st) as st' eqn:Hst'.
  unfold exec in Hst'. rewrite V1_update_all_phases, V1_load_hosts_net in Hst'.
  rewrite hosts_at_snoc in Hst'.
  destruct (decide (fetched (net (GET V1.PRIMARY_URL 15)) = ∅)) as [He|Hne].
  { rewrite bool_decide_eq_true_2 in Hst' by done. subst st'. cbn.
    by rewrite last_snoc. }
  rewrite bool_decide_eq_false_2 in Hst' by done.
  rewrite V1_patch_run, V1_probe_net in Hst'.
  cbn [objects getaddrinfo _ORIGINAL_GETADDRINFO _RUNTIME_HOSTS jobs
       plugin_config log sent] in Hst'.
  destruct (probe_passes (net (HEAD V1.PROBE_URL 5))); cbn [negb] in Hst'.
  2: { subst st'. cbn. rewrite last_snoc.
       repeat split; try done.
       - unfold hosts_at. cbn. by rewrite lookup_snoc_here.
       - by rewrite <- app_assoc. }
  unfold mbind at 1, M_bind at 1 in Hst'. rewrite V1_load_hosts_net in Hst'.
  unfold mbind at 1, M_bind at 1 in Hst'. rewrite V1_load_hosts_net in Hst'.
  cbn [objects getaddrinfo _ORIGINAL_GETADDRINFO _RUNTIME_HOSTS jobs
       plugin_config log sent] in Hst'.
  cbv [mbind M_bind mret M_ret dict_update dict_len gets logger modify V1._patch]
    in Hst'.
  unfold hosts_at, set_objects, set_getaddrinfo, set_log in Hst'.
  cbn [objects getaddrinfo _ORIGINAL_GETADDRINFO _RUNTIME_HOSTS jobs
       plugin_config log sent snd fst] in Hst'.
  match type of Hst' with
  | _ = State ?X _ _ _ _ _ _ _ =>
      assert (X = objects st ++
                  [(fetched (net (GET V1.TMDB_IPV6_URL 15))
                    ∪ fetched (net (GET V1.TMDB_IPV4_URL 15)))
                   ∪ fetched (net (GET V1.PRIMARY_URL 15));
                   fetched (net (GET V1.TMDB_IPV6_URL 15))
                    ∪ fetched (net (GET V1.TMDB_IPV4_URL 15));
                   fetched (net (GET V1.TMDB_IPV6_URL 15))]) as HX
        by apply V1_merge_objects;
      rewrite HX in Hst'; clear HX
  end.
  match type of Hst' with
  | context [Merged (size ?Y)] =>
      assert (Y = (fetched (net (GET V1.TMDB_IPV6_URL 15))
                   ∪ fetched (net (GET V1.TMDB_IPV4_URL 15)))
                  ∪ fetched (net (GET V1.PRIMARY_URL 15))) as Hg
        by (by rewrite list_lookup_middle);
      rewrite Hg in Hst'; clear Hg
  end.
  subst st'. unfold hosts_at. cbn. rewrite last_snoc.
  rewrite list_lookup_middle by done. cbn.
  repeat split; try done.
  - intros k. rewrite !lookup_union.
    by destruct (_ !! k), (_ !! k), (_ !! k).
  - by rewrite <- !app_assoc.
Qed.




(** The last phase of [_update_all] of the second variant, from any store. *)
Lemma V2_merge_run_any (L : list hosts) r o h j c l s (g t t6 : loc) :
  let L1 := <[t := default ∅ (L !! t6) ∪ default ∅ (L !! t)]> L in
  let m := default ∅ (L1 !! t) ∪ default ∅ (L1 !! g) in
  exec (dict_update t t6;;
        combined_hosts ← dict_unpack g t;
        n ← dict_len combined_hosts;
        logger INFO (Merged n);;
        V2._patch_dns combined_hosts;;
        modify (set_RUNTIME_HOSTS combined_hosts);;
        logger INFO UpdateDone) (State L r o h j c l s) =
  State (L1 ++ [m]) (Patched (length L)) o (length L) j c
        (l ++ [(INFO, Merged (size m)); (INFO, DnsPatched);
               (INFO, UpdateDone)]) s.
Proof.
  cbv zeta. rewrite exec_bind.
  replace (exec (dict_update t t6) (State L r o h j c l s))
    with (State (<[t := default ∅ (L !! t6) ∪ default ∅ (L !! t)]> L)
                r o h j c l s) by done.
  generalize (eval (dict_update t t6) (State L r o h j c l s)). intros _.
  remember (<[t := default ∅ (L !! t6) ∪ default ∅ (L !! t)]> L) as L1 eqn:E.
  replace (length L) with (length L1) by (subst L1; apply length_insert).
  clear E.
  cbv [exec mbind M_bind dict_unpack new_dict dict_len gets logger modify
       V2._patch_dns hosts_at set_objects set_getaddrinfo set_log
       set_RUNTIME_HOSTS].
  cbn [objects getaddrinfo _ORIGINAL_GETADDRINFO _RUNTIME_HOSTS jobs
       plugin_config log sent snd fst].
  rewrite lookup_snoc_here, <- !app_assoc. cbn [default].
  reflexivity.
Qed.



End StatelessNetwork.

(** ** The shape of every run *)

Section Shapes.
Context `{W : World}.

(** Whatever the network answers, a run of the first variant's pipeline only
    adds dicts to the store, leaves the resolver alone or closes it over the
    first of the new dicts, and sends one of the three request sequences. *)
Lemma V1_update_all_shape st :
  exists extra r lines trace,
    exec V1._update_all st =
    State (objects st ++ extra) r (_ORIGINAL_GETADDRINFO st)
          (_RUNTIME_HOSTS st) (jobs st) (plugin_config st)
          (log st ++ lines) (sent st ++ trace)
    /\ extra <> []
    /\ (r = getaddrinfo st \/ r = Patched (length (objects st)))
    /\ trace ∈ run_requests V1.PRIMARY_URL V1.PROBE_URL
                            V1.TMDB_IPV4_URL V1.TMDB_IPV6_URL
    /\ (exists lv e, last lines = Some (lv, e)).
Proof.
  remember (exec V1._update_all st) as st' eqn:Hst'.
  unfold exec in Hst'. rewrite V1_update_all_phases, V1_load_hosts_answer in Hst'.
  cbv zeta in Hst'. rewrite hosts_at_snoc in Hst'.
  match type of Hst' with context [V1_fetch_log _ ?a] =>
    set (A := a) in *; set (P := fetched A) in * end.
  unfold run_requests.
  destruct (bool_decide (P = ∅)).
  { subst st'. exists [P], (getaddrinfo st),
      (V1_fetch_log V1.PRIMARY_URL A ++ [(ERROR, PrimaryEmpty)]),
      [GET V1.PRIMARY_URL 15].
    cbn. rewrite app_assoc, last_snoc.
    repeat split; eauto. set_solver. }
  rewrite V1_patch_run, V1_probe_answer in Hst'. cbv zeta in Hst'.
  cbn [objects getaddrinfo _ORIGINAL_GETADDRINFO _RUNTIME_HOSTS jobs
       plugin_config log sent] in Hst'.
  match type of Hst' with context [probe_log _ ?a] => set (B := a) in * end.
  destruct (probe_passes B); cbn [negb] in Hst'.
  2: { subst st'. exists [P], (Patched (length (objects st))),
         (V1_fetch_log V1.PRIMARY_URL A ++ [probe_log V1.PROBE_URL B]
          ++ [(ERROR, GateClosed)]),
         [GET V1.PRIMARY_URL 15; HEAD V1.PROBE_URL 5].
       cbn. repeat split; eauto.
       - by rewrite <- !app_assoc.
       - set_solver.
       - rewrite !last_app. cbn. eauto. }
  unfold mbind at 1, M_bind at 1 in Hst'. rewrite V1_load_hosts_answer in Hst'.
  cbv zeta in Hst'.
  match type of Hst' with context [V1_fetch_log V1.TMDB_IPV4_URL ?a] =>
    set (A4 := a) in *; set (T4 := fetched A4) in * end.
  unfold mbind at 1, M_bind at 1 in Hst'. rewrite V1_load_hosts_answer in Hst'.
  cbv zeta in Hst'.
  match type of Hst' with context [V1_fetch_log V1.TMDB_IPV6_URL ?a] =>
    set (A6 := a) in *; set (T6 := fetched A6) in * end.
  cbn [objects getaddrinfo _ORIGINAL_GETADDRINFO _RUNTIME_HOSTS jobs
       plugin_config log sent] in Hst'.
  cbv [mbind M_bind mret M_ret dict_update dict_len gets logger modify V1._patch]
    in Hst'.
  unfold hosts_at, set_objects, set_getaddrinfo, set_log in Hst'.
  cbn [objects getaddrinfo _ORIGINAL_GETADDRINFO _RUNTIME_HOSTS jobs
       plugin_config log sent snd fst] in Hst'.
  match type of Hst' with
  | _ = State ?X _ _ _ _ _ _ _ =>
      assert (X = objects st ++ [(T6 ∪ T4) ∪ P; T6 ∪ T4; T6]) as HX
        by apply V1_merge_objects;
      rewrite HX in Hst'; clear HX
  end.
  match type of Hst' with
  | context [Merged ?n] => set (N := n) in *
  end.
  subst st'.
  exists [(T6 ∪ T4) ∪ P; T6 ∪ T4; T6], (Patched (length (objects st))),
    (V1_fetch_log V1.PRIMARY_URL A ++ [probe_log V1.PROBE_URL B]
     ++ V1_fetch_log V1.TMDB_IPV4_URL A4 ++ V1_fetch_log V1.TMDB_IPV6_URL A6
     ++ [(INFO, Merged N)]),
    [GET V1.PRIMARY_URL 15; HEAD V1.PROBE_URL 5;
     GET V1.TMDB_IPV4_URL 15; GET V1.TMDB_IPV6_URL 15].
  rewrite !app_assoc, last_snoc, <- !app_assoc.
  repeat split; eauto. set_solver.
Qed.

(** The same for the second variant, which may also rebind the cache, and
    then to the dict the resolver is closed over. *)
Lemma V2_update_all_shape st :
  exists extra r rh lines trace,
    exec V2._update_all st =
    State (objects st ++ extra) r (_ORIGINAL_GETADDRINFO st) rh (jobs st)
          (plugin_config st) (log st ++ lines) (sent st ++ trace)
    /\ extra <> []
    /\ (r = getaddrinfo st
        \/ exists c, r = Patched c
                     /\ length (objects st) <= c < length (objects st ++ extra))
    /\ (rh = _RUNTIME_HOSTS st
        \/ r = Patched rh
           /\ length (objects st) <= rh < length (objects st ++ extra))
    /\ trace ∈ run_requests (github_url (plugin_config st))
                            (probe_url (plugin_config st))
                            (tmdb_ipv4_url (plugin_config st))
                            (tmdb_ipv6_url (plugin_config st))
    /\ (exists lv e, last lines = Some (lv, e)).
Proof.
  remember (exec V2._update_all st) as st' eqn:Hst'.
  unfold exec in Hst'. rewrite V2_update_all_phases in Hst'. cbv zeta in Hst'.
  rewrite logger_run, V2_load_hosts_answer in Hst'. cbv zeta in Hst'.
  cbn [objects getaddrinfo _ORIGINAL_GETADDRINFO _RUNTIME_HOSTS jobs
       plugin_config log sent] in Hst'.
  match type of Hst' with context [V2_fetch_log _ ?a] =>
    set (A := a) in *; set (P := fetched A) in *; set (D := V2_dropped A) in *
  end.
  unfold run_requests.
  destruct (bool_decide _).
  { subst st'. exists (D ++ [P]), (getaddrinfo st), (_RUNTIME_HOSTS st),
      ([(INFO, UpdateStarted)]
       ++ [V2_fetch_log (github_url (plugin_config st)) A]
       ++ [(ERROR, PrimaryEmpty)]),
      [GET (github_url (plugin_config st)) 15].
    cbn. rewrite <- !app_assoc. cbn.
    repeat split; eauto; [by destruct D|set_solver]. }
  rewrite V2_patch_dns_run in Hst'.
  cbn [objects getaddrinfo _ORIGINAL_GETADDRINFO _RUNTIME_HOSTS jobs
       plugin_config log sent] in Hst'.
  rewrite V2_probe_answer in Hst'. cbv zeta in Hst'.
  match type of Hst' with context [probe_log _ ?a] => set (B := a) in * end.
  destruct (probe_passes B); cbn [negb] in Hst'.
  2: { subst st'.
       exists (D ++ [P]), (Patched (length (objects st) + length D)),
         (_RUNTIME_HOSTS st),
         ([(INFO, UpdateStarted)]
          ++ [V2_fetch_log (github_url (plugin_config st)) A]
          ++ [(INFO, DnsPatched)]
          ++ [probe_log (probe_url (plugin_config st)) B]
          ++ [(ERROR, GateClosed)]),
         [GET (github_url (plugin_config st)) 15;
          HEAD (probe_url (plugin_config st)) 5].
       cbn. rewrite <- !app_assoc. cbn.
       repeat split; eauto; [by destruct D| |set_solver].
       right. eexists. split; [done|]. rewrite !length_app. cbn. lia. }
  unfold mbind at 1, M_bind at 1 in Hst'. cbn [gets plugin_config] in Hst'.
  unfold mbind at 1, M_bind at 1 in Hst'. rewrite V2_load_hosts_answer in Hst'.
  cbv zeta in Hst'.
  match type of Hst' with
  | context [V2_fetch_log (tmdb_ipv4_url _) ?a] =>
      set (A4 := a) in *; set (T4 := fetched A4) in *;
      set (D4 := V2_dropped A4) in *
  end.
  unfold mbind at 1, M_bind at 1 in Hst'. rewrite V2_load_hosts_answer in Hst'.
  cbv zeta in Hst'.
  match type of Hst' with
  | context [V2_fetch_log (tmdb_ipv6_url _) ?a] =>
      set (A6 := a) in *; set (T6 := fetched A6) in *;
      set (D6 := V2_dropped A6) in *
  end.
  cbn [objects getaddrinfo _ORIGINAL_GETADDRINFO _RUNTIME_HOSTS jobs
       plugin_config log sent] in Hst'.
  match type of Hst' with
  | _ = (?m (State ?L ?r ?o ?h ?j ?c ?l ?s)).2 =>
      change (st' = exec m (State L r o h j c l s)) in Hst';
      assert (L = objects st ++ (D ++ [P]) ++ (D4 ++ [T4]) ++ D6 ++ [T6]) as HL
        by (by rewrite <- !app_assoc);
      rewrite HL in Hst'; clear HL
  end.
  rewrite V2_merge_run_any in Hst'. cbv zeta in Hst'.
  match type of Hst' with
  | _ = State (<[?t := ?x]> _ ++ [?m]) _ _ _ _ _ _ _ =>
      set (M1 := m) in *; set (X1 := x) in *; set (t1 := t) in *;
      assert (length (objects st) <= t1) as Ht
        by (subst t1; rewrite !length_app; lia)
  end.
  rewrite insert_app_r_alt in Hst' by done.
  rewrite <- (app_assoc (objects st)) in Hst'.
  match type of Hst' with
  | _ = State (objects st ++ ?E) _ _ _ _ _ _ _ => set (extra := E) in *
  end.
  set (c := length (objects st ++ (D ++ [P]) ++ (D4 ++ [T4]) ++ D6 ++ [T6]))
    in *.
  subst st'.
  exists extra, (Patched c), c,
    ([(INFO, UpdateStarted)]
     ++ [V2_fetch_log (github_url (plugin_config st)) A]
     ++ [(INFO, DnsPatched)]
     ++ [probe_log (probe_url (plugin_config st)) B]
     ++ [V2_fetch_log (tmdb_ipv4_url (plugin_config st)) A4]
     ++ [V2_fetch_log (tmdb_ipv6_url (plugin_config st)) A6]
     ++ [(INFO, Merged (size M1))] ++ [(INFO, DnsPatched)]
     ++ [(INFO, UpdateDone)]),
    [GET (github_url (plugin_config st)) 15;
     HEAD (probe_url (plugin_config st)) 5;
     GET (tmdb_ipv4_url (plugin_config st)) 15;
     GET (tmdb_ipv6_url (plugin_config st)) 15].
  assert (length (objects st ++ extra) = S c) as Hlen.
  { subst extra c. rewrite !length_app, length_insert, !length_app. cbn. lia. }
  assert (length (objects st) <= c) as Hc
    by (subst c; rewrite length_app; lia).
  split.
  { f_equal; rewrite <- ?app_assoc; done. }
  split; [intros E; rewrite E, app_nil_r in Hlen; lia|].
  split.
  { right. eexists. split; [done|]. rewrite Hlen. lia. }
  split.
  { right. split; [done|]. rewrite Hlen. lia. }
  split; [set_solver|]. eauto.
Qed.


End Shapes.

(** ** The life cycle of the first variant *)

Section V1Life.
Context `{W : World}.

Lemma V1_enabled_reads (c : gmap string bool) :
  negb (bool_decide (c = ∅)) && default false (c !! "enable")
  = bool_decide (c !! "enable" = Some true).
Proof.
  destruct (c !! "enable") as [[]|] eqn:E; cbn.
  - rewrite (bool_decide_eq_true_2 (Some true = Some true)) by done.
    rewrite bool_decide_eq_false_2; [done|]. intros ->. by rewrite lookup_empty in E.
  - rewrite (bool_decide_eq_false_2 (Some false = Some true)) by done.
    by rewrite andb_false_r.
  - rewrite (bool_decide_eq_false_2 (None = Some true)) by done.
    by rewrite andb_false_r.
Qed.

Lemma V1_init_plugin_branch c :
  V1.init_plugin c = if V1_enabled c then V1._enable else V1._disable.
Proof.
  unfold V1.init_plugin, V1_enabled. destruct c as [m|]; [|done].
  by rewrite V1_enabled_reads.
Qed.

Lemma V1_enable_run st :
  exists extra r lines trace,
    exec V1._enable st =
    State (objects st ++ extra) r (_ORIGINAL_GETADDRINFO st)
          (_RUNTIME_HOSTS st)
          (<[JOB_ID := Job 4 (Some 0%Z) true 1]> (delete JOB_ID (jobs st)))
          (plugin_config st) (log st ++ lines) (sent st ++ trace)
    /\ extra <> []
    /\ (r = getaddrinfo st \/ r = Patched (length (objects st)))
    /\ trace ∈ run_requests V1.PRIMARY_URL V1.PROBE_URL
                            V1.TMDB_IPV4_URL V1.TMDB_IPV6_URL.
Proof.
  destruct (V1_update_all_shape st)
    as (extra & r & lines & trace & E & He & Hr & Ht & _).
  exists extra, r, (lines ++ [(INFO, PluginEnabled)]), trace.
  split; [|done].
  unfold V1._enable. rewrite exec_bind, E, (app_assoc (log st)). reflexivity.
Qed.

(** X7.  First variant: after [init_plugin], [get_state()] tells whether the
    config asked for the plugin, that is whether there is a config whose
    ["enable"] entry is truthy; no config, an empty config, a config without
    that key or with a falsy value all disable.  When enabled, the daily job
    is in the store, at hour 4, minute 0, coalescing, one instance, and it is
    there whatever the network answered during the first update; when
    disabled it is not.  Jobs under other ids are not touched. *)
Theorem V1_get_state_follows_config c st :
  let st' := exec (V1.init_plugin c) st in
  eval V1.get_state st' = V1_enabled c
  /\ jobs st' !! JOB_ID
     = (if V1_enabled c then Some (Job 4 (Some 0%Z) true 1) else None)
  /\ (forall id, id <> JOB_ID -> jobs st' !! id = jobs st !! id)
  /\ V1_enabled None = false
  /\ V1_enabled (Some ∅) = false
  /\ (forall m, m !! "enable" = None -> V1_enabled (Some m) = false).
Proof.
  cbv zeta. rewrite V1_init_plugin_branch.
  assert (forall m : gmap string bool,
             m !! "enable" = None -> V1_enabled (Some m) = false) as Hmiss.
  { intros m Hm. unfold V1_enabled. rewrite Hm. by rewrite bool_decide_eq_false_2. }
  destruct (V1_enabled c).
  - destruct (V1_enable_run st) as (extra & r & lines & trace & -> & _).
    unfold eval, V1.get_state, gets. cbn.
    rewrite lookup_insert_eq.
    repeat split; try done.
    intros id Hid. by rewrite lookup_insert_ne, lookup_delete_ne.
  - rewrite V1_disable_run. unfold eval, V1.get_state, gets. cbn.
    rewrite lookup_delete_eq.
    repeat split; try done;
      try (rewrite bool_decide_eq_false_2; [done|]; by intros [? ?]).
    intros id Hid. by rewrite lookup_delete_ne.
Qed.

Lemma V1_invariant_at_load cfg : V1_invariant (module_loaded cfg).
Proof. unfold V1_invariant. cbn. repeat split; try done; lia. Qed.

Lemma V1_init_plugin_keeps_invariant c st :
  V1_invariant st -> V1_invariant (exec (V1.init_plugin c) st).
Proof.
  intros (Ho & Hr & Hc & Hlen & Hres). rewrite V1_init_plugin_branch.
  destruct (V1_enabled c).
  - destruct (V1_enable_run st) as (extra & r & lines & trace & -> & He & Hrr & _).
    unfold V1_invariant, hosts_at in *. cbn. rewrite length_app.
    rewrite lookup_app_l by done.
    repeat split; try done; try lia.
    destruct Hrr as [-> | ->].
    + destruct (getaddrinfo st); [done|lia].
    + destruct extra; [done|cbn; lia].
  - rewrite V1_disable_run. unfold V1_invariant, hosts_at in *. cbn.
    rewrite Ho, Hr, length_insert, list_lookup_insert_eq by done.
    done.
Qed.

Lemma V1_reconfigure_keeps_invariant configs st :
  V1_invariant st -> V1_invariant (exec (V1.reconfigure configs) st).
Proof.
  revert st. induction configs as [|c configs IH]; intros st Hinv; [done|].
  cbn [V1.reconfigure]. rewrite exec_bind.
  apply IH. by apply V1_init_plugin_keeps_invariant.
Qed.

(** X8.  First variant, from the loading of the module through any series of
    [init_plugin] calls: [_RUNTIME_HOSTS] stays bound to the dict made at
    load time and that dict stays empty, so the cache never holds the
    table the resolver reads; [_ORIGINAL_GETADDRINFO] stays the platform
    function; and when a closure is installed, its dict is in the store and
    is not the cache dict, so [_RUNTIME_HOSTS.clear()] never empties the
    table in use. *)
Theorem V1_cache_is_never_filled cfg configs :
  let st := exec (V1.reconfigure configs) (module_loaded cfg) in
  _ORIGINAL_GETADDRINFO st = Original
  /\ _RUNTIME_HOSTS st = 0
  /\ hosts_at st (_RUNTIME_HOSTS st) = ∅
  /\ match getaddrinfo st with
     | Original => True
     | Patched t => t <> _RUNTIME_HOSTS st /\ t < length (objects st)
     end.
Proof.
  cbv zeta.
  destruct (V1_reconfigure_keeps_invariant configs (module_loaded cfg)
              (V1_invariant_at_load cfg)) as (Ho & Hr & Hc & Hlen & Hres).
  rewrite Hr. repeat split; try done.
  destruct (getaddrinfo _); [done|]. lia.
Qed.


End V1Life.

(** ** The life cycle of the second variant *)

Section V2Life.
Context `{W : World}.

Lemma V2_register_job_run st :
  let cfg := plugin_config st in
  exec V2._register_job st =
  State (objects st) (getaddrinfo st) (_ORIGINAL_GETADDRINFO st)
        (_RUNTIME_HOSTS st)
        (if enable cfg
         then <[JOB_ID := Job (update_hour cfg) None true 1]>
                (delete JOB_ID (jobs st))
         else delete JOB_ID (jobs st))
        cfg
        (if enable cfg
         then log st ++ [(INFO, JobRegistered (update_hour cfg))]
         else log st)
        (sent st).
Proof.
  cbv zeta. unfold V2._register_job, V2.remove_job, V2.add_job, exec.
  unfold mbind, M_bind, mret, M_ret, modify, gets, logger. cbn.
  by destruct (enable (plugin_config st)).
Qed.


Lemma V2_init_plugin_run cfg st :
  exec (V2.init_plugin cfg) st =
  exec (logger INFO InitDone)
       (exec V2._register_job
             (exec (if enable (default V2.DEFAULT_CONFIG cfg)
                    then V2._enable else V2._disable)
                   (set_plugin_config (default V2.DEFAULT_CONFIG cfg) st))).
Proof.
  unfold V2.init_plugin. rewrite !exec_bind. done.
Qed.



(** X10.  Disabling never goes to the network and makes no dict: [_disable]
    of either variant, [stop_plugin], and [init_plugin] with a config that
    does not enable the plugin leave the list of requests sent and the
    number of dicts as they were.  After [stop_plugin] the daily job is gone
    and the cache dict is empty. *)
Theorem disabling_sends_nothing st :
  let quiet (s : state) :=
    sent s = sent st /\ length (objects s) = length (objects st) in
  quiet (exec V1._disable st)
  /\ quiet (exec V2._disable st)
  /\ quiet (exec V2.stop_plugin st)
  /\ (forall c, V1_enabled c = false -> quiet (exec (V1.init_plugin c) st))
  /\ (forall c, enable c = false -> quiet (exec (V2.init_plugin (Some c)) st))
  /\ jobs (exec V2.stop_plugin st) !! JOB_ID = None
  /\ hosts_at (exec V2.stop_plugin st) (_RUNTIME_HOSTS st) = ∅.
Proof.
  cbv zeta.
  assert (exec V2.stop_plugin st
          = State (<[_RUNTIME_HOSTS st := ∅]> (objects st))
                  (_ORIGINAL_GETADDRINFO st) (_ORIGINAL_GETADDRINFO st)
                  (_RUNTIME_HOSTS st) (delete JOB_ID (jobs st))
                  (plugin_config st)
                  (log st ++ [(INFO, PluginDisabled); (INFO, PluginStopped)])
                  (sent st)) as Hstop.
  { unfold V2.stop_plugin. rewrite !exec_bind, V2_disable_run. cbn.
    by rewrite <- app_assoc. }
  rewrite Hstop, V1_disable_run, V2_disable_run. cbn.
  rewrite !length_insert, lookup_delete_eq.
  repeat split; try done; try intros c H.
  - by rewrite V1_init_plugin_branch, H, V1_disable_run.
  - rewrite V1_init_plugin_branch, H, V1_disable_run. cbn.
    by rewrite length_insert.
  - rewrite V2_init_plugin_run, logger_run, V2_register_job_run. cbn.
    by rewrite H.
  - rewrite V2_init_plugin_run, logger_run, V2_register_job_run. cbv zeta.
    cbn [objects default from_option id]. rewrite H. cbn [objects].
    rewrite V2_disable_run. cbn [objects]. by rewrite length_insert.
  - unfold hosts_at. cbn. apply hosts_at_cleared.
Qed.

End V2Life.

(** ** What the parsed table holds *)







Section ParsedTable.
Context `{W : World}.



End ParsedTable.

(** ** Only the tokens of a line matter *)




(** ** From the document to the answer of the resolver *)


(** ** The cache of the second variant is the table in use *)

(** X15.  Second variant: a run of [_update_all] that rebinds
    [_RUNTIME_HOSTS] binds it to the very dict the resolver has just been
    closed over, not to a copy.  The [_RUNTIME_HOSTS.clear()] of the next
    [_disable] therefore empties the table in use. *)
Theorem V2_cache_is_the_installed_dict `{W : World} st :
  let s1 := exec V2._update_all st in
  _RUNTIME_HOSTS s1 <> _RUNTIME_HOSTS st ->
  getaddrinfo s1 = Patched (_RUNTIME_HOSTS s1)
  /\ forall t, getaddrinfo s1 = Patched t ->
               hosts_at (exec V2._disable s1) t = ∅.
Proof.
  cbv zeta.
  destruct (V2_update_all_shape st)
    as (extra & r & rh & lines & trace & -> & _ & _ & Hrh & _).
  cbn. intros Hne. destruct Hrh as [->|[-> _]]; [done|].
  split; [done|]. intros t [= <-].
  rewrite V2_disable_run. unfold hosts_at. cbn. apply hosts_at_cleared.
Qed.

(** ** The further properties at concrete inputs *)

Lemma scenario_A_is_stateless st rq :
  requests_send (World := Sample.scenario_A) st rq = Sample.scenario_A_net rq.
Proof. reflexivity. Qed.

Lemma scenario_A_primary_not_empty :
  fetched (W := Sample.scenario_A)
          (Sample.scenario_A_net (GET V1.PRIMARY_URL 15)) <> ∅.
Proof.
  intros E.
  assert (fetched (W := Sample.scenario_A)
                  (Sample.scenario_A_net (GET V1.PRIMARY_URL 15))
          !! "github.com" = Some ("140.82.112.3", AF_INET)) as Hin
    by (vm_compute; reflexivity).
  rewrite E, lookup_empty in Hin. discriminate.
Qed.

Lemma V1_update_all_outcome_witness :
  let st0 := module_loaded V2.DEFAULT_CONFIG in
  (forall st rq, requests_send (World := Sample.scenario_A) st rq
                 = Sample.scenario_A_net rq)
  /\ getaddrinfo (exec (V1._update_all (W := Sample.scenario_A)) st0) = Patched 1
  /\ sent (exec (V1._update_all (W := Sample.scenario_A)) st0)
     = [GET V1.PRIMARY_URL 15; HEAD V1.PROBE_URL 5;
        GET V1.TMDB_IPV4_URL 15; GET V1.TMDB_IPV6_URL 15].
Proof.
  cbv zeta. split; [exact scenario_A_is_stateless|].
  pose proof (V1_update_all_outcome (W := Sample.scenario_A)
                Sample.scenario_A_net scenario_A_is_stateless
                (module_loaded V2.DEFAULT_CONFIG)) as H.
  cbv zeta in H.
  destruct (decide _) as [He|_] in H;
    [exfalso; exact (scenario_A_primary_not_empty He)|].
  change (probe_passes
            (Sample.scenario_A_net (HEAD V1.PROBE_URL 5))) with true in H.
  destruct H as (Hg & _ & _ & Hs & _). split; [exact Hg|exact Hs].
Defined.





Lemma V1_disable_restores_platform_function_witness :
  let cycles := [Some {[ "enable" := true ]}; None; Some {[ "enable" := true ]}] in
  let st0 := module_loaded V2.DEFAULT_CONFIG in
  _ORIGINAL_GETADDRINFO st0 = Original
  /\ getaddrinfo (exec V1._disable
                       (exec (V1.reconfigure (W := Sample.scenario_A) cycles) st0))
     = Original.
Proof.
  cbv zeta.
  assert (_ORIGINAL_GETADDRINFO (module_loaded V2.DEFAULT_CONFIG) = Original)
    as Ho by reflexivity.
  split; [exact Ho|].
  exact (V1_disable_restores_platform_function (W := Sample.scenario_A) _ _ Ho).
Defined.

Lemma V2_cache_is_the_installed_dict_witness :
  let st0 := module_loaded V2.DEFAULT_CONFIG in
  let s1 := exec (V2._update_all (W := Sample.scenario_A)) st0 in
  _RUNTIME_HOSTS s1 <> _RUNTIME_HOSTS st0
  /\ getaddrinfo s1 = Patched (_RUNTIME_HOSTS s1).
Proof.
  cbv zeta.
  assert (_RUNTIME_HOSTS (exec (V2._update_all (W := Sample.scenario_A))
                               (module_loaded V2.DEFAULT_CONFIG)) = 4)
    as Hr by (vm_compute; reflexivity).
  assert (_RUNTIME_HOSTS (exec (V2._update_all (W := Sample.scenario_A))
                               (module_loaded V2.DEFAULT_CONFIG))
          <> _RUNTIME_HOSTS (module_loaded V2.DEFAULT_CONFIG)) as Hne.
  { rewrite Hr. cbn. lia. }
  split; [exact Hne|].
  exact (proj1 (V2_cache_is_the_installed_dict (W := Sample.scenario_A) _ Hne)).
Defined.
